(** * Safety evaluation of the anesthesia workstation simulator

    A shallow embedding of [evaluate_anesthesia_realistic]
    (anesthesia_device_gui/anesthesia_machine_UI.py) and the properties of
    its alarm / warning classification, followed by the handlers of the
    start-mode window that call it ([on_start], [load_defaults],
    [reset_fields]).

    Python's [float] is IEEE 754 binary64, so the numeric parameters are
    Rocq's primitive [float]s: the comparisons are the IEEE ones (every
    comparison with NaN is false) and [*] and [/] round to nearest-even.
    Strings are byte strings holding the UTF-8 encoding of the source
    literals. *)

From Stdlib Require Import ZArith List String Ascii Bool Lia.
From Stdlib Require Import DecimalString.
From Stdlib Require Import Floats.
Import ListNotations.

Set Warnings "-inexact-float".

Local Open Scope string_scope.

(** ** Exceptions *)

(** The only operation of the evaluator that can raise is float division. *)
Inductive exn : Type :=
  | ZeroDivisionError.

Inductive outcome (A : Type) : Type :=
  | Returns (a : A)
  | Raises (e : exn).

Arguments Returns {A} a.
Arguments Raises {A} e.

Definition bind {A B : Type} (c : outcome A) (k : A -> outcome B) : outcome B :=
  match c with
  | Returns a => k a
  | Raises e => Raises e
  end.

Notation "x <- c ;; k" := (bind c (fun x => k))
  (at level 61, c at next level, right associativity).

(** ** Python numbers *)

Module Py.

(** [a / b] on floats: Python raises [ZeroDivisionError] when the divisor
    compares equal to zero (either sign), and otherwise divides as IEEE. *)
Definition truediv (a b : float) : outcome float :=
  if (b =? 0)%float then Raises ZeroDivisionError else Returns (a / b)%float.

(** A number that is either an [int] or a [float]: the tidal volume per
    kilogram is the float quotient, or the int literal [0] of the fallback
    branch. *)
Inductive num : Type :=
  | Int (z : Z)
  | Float (f : float).

(** Exact comparison of an integer with the value [(-1)^s * m * 2^e] of a
    finite float. *)
Definition Zcompare_finite (z : Z) (s : bool) (m : positive) (e : Z) : comparison :=
  let v := if s then Z.neg m else Z.pos m in
  if (0 <=? e)%Z then (z ?= v * 2 ^ e)%Z else (z * 2 ^ (- e) ?= v)%Z.

(** [int] against [float]: Python compares the exact values. *)
Definition Zcompare_float (z : Z) (y : float) : option comparison :=
  match Prim2SF y with
  | S754_nan => None
  | S754_infinity s => Some (if s then Gt else Lt)
  | S754_zero _ => Some (z ?= 0)%Z
  | S754_finite s m e => Some (Zcompare_finite z s m e)
  end.

(** [x < y] and [x > y] for a number [x] and a float [y]. *)
Definition ltb (x : num) (y : float) : bool :=
  match x with
  | Float f => (f <? y)%float
  | Int z => match Zcompare_float z y with Some Lt => true | _ => false end
  end.

Definition gtb (x : num) (y : float) : bool :=
  match x with
  | Float f => (y <? f)%float
  | Int z => match Zcompare_float z y with Some Gt => true | _ => false end
  end.

(** *** Decimal rendering *)

Definition digits (n : Z) : string := NilZero.string_of_uint (N.to_uint (Z.to_N n)).

Fixpoint zeros (k : nat) : string :=
  match k with
  | O => ""
  | S k' => "0" ++ zeros k'
  end.

(** [n] written with at least [k] digits, zero-padded on the left. *)
Definition pad_digits (k : nat) (n : Z) : string :=
  let d := digits n in
  zeros (k - String.length d) ++ d.

(** [n / d] rounded to the nearest integer, ties to even ([0 <= n], [0 < d]). *)
Definition div_half_even (n d : Z) : Z :=
  let q := (n / d)%Z in
  let r := (n mod d)%Z in
  if (2 * r <? d)%Z then q
  else if (d <? 2 * r)%Z then (q + 1)%Z
  else if Z.even q then q else (q + 1)%Z.

(** [m * 2^e * 10^k] rounded to the nearest integer, ties to even. *)
Definition scaled_half_even (m : positive) (e : Z) (k : nat) : Z :=
  let p := (10 ^ Z.of_nat k)%Z in
  if (0 <=? e)%Z then (Z.pos m * 2 ^ e * p)%Z
  else div_half_even (Z.pos m * p) (2 ^ (- e)).

Definition sign_string (s : bool) : string := if s then "-" else "".

(** [n / 10^k] in fixed notation with [k] fractional digits ([0 < k]). *)
Definition fixed_digits (k : nat) (n : Z) : string :=
  let p := (10 ^ Z.of_nat k)%Z in
  digits (n / p) ++ "." ++ pad_digits k (n mod p).

(** [format(x, ".kf")] for a float and [0 < k]: the exact value of [x]
    correctly rounded (ties to even) to [k] fractional digits. *)
Definition format_f_float (k : nat) (x : float) : string :=
  match Prim2SF x with
  | S754_nan => "nan"
  | S754_infinity s => sign_string s ++ "inf"
  | S754_zero s => sign_string s ++ fixed_digits k 0
  | S754_finite s m e => sign_string s ++ fixed_digits k (scaled_half_even m e k)
  end.

(** [format(x, ".kf")] for a number.  An [int] is converted to a float
    first, which is exact up to [2^53]; the evaluator only formats the int
    [0]. *)
Definition format_f (k : nat) (x : num) : string :=
  match x with
  | Float f => format_f_float k f
  | Int z =>
      (if (z <? 0)%Z then "-" else "") ++ fixed_digits k (Z.abs z * 10 ^ Z.of_nat k)
  end.

(** The double nearest to [c * 10^q] with sign [s] ([0 <= c]), as [float()]
    reads a decimal string: one correctly rounded division of integers. *)
Definition of_decimal (s : bool) (c q : Z) : spec_float :=
  match (c * 10 ^ Z.max q 0)%Z with
  | Z.pos p =>
      SFdiv prec emax (S754_finite s p 0)
            (S754_finite false (Z.to_pos (10 ^ Z.max (- q) 0)) 0)
  | _ => S754_zero s
  end.

(** [round(x, ndigits)] for a float and [0 <= ndigits]: NaN, the infinities
    and the zeros round to themselves; a finite [x] is rounded correctly
    (ties to even, on its exact value) to [ndigits] decimals and read back
    as a float. *)
Definition round_float (x : float) (ndigits : nat) : float :=
  if (323 <? ndigits)%nat then x
  else
    match Prim2SF x with
    | S754_finite s m e =>
        SF2Prim (of_decimal s (scaled_half_even m e ndigits) (- Z.of_nat ndigits))
    | _ => x
    end.

(** [round(x, ndigits)]: an [int] is unchanged for [0 <= ndigits]. *)
Definition round (x : num) (ndigits : nat) : num :=
  match x with
  | Int z => Int z
  | Float f => Float (round_float f ndigits)
  end.

(** *** [repr] of a float *)

(** Exact comparison of [m * 2^e] with [c * 10^q]. *)
Definition compare_bin_dec (m : positive) (e c q : Z) : comparison :=
  (Z.pos m * 2 ^ Z.max e 0 * 10 ^ Z.max (- q) 0
   ?= c * 10 ^ Z.max q 0 * 2 ^ Z.max (- e) 0)%Z.

(** The decimal point position of [x = m * 2^e]: the [d] with
    [10^(d-1) <= x < 10^d], searched downwards from [d]. *)
Fixpoint find_decpt (fuel : nat) (m : positive) (e d : Z) : Z :=
  match fuel with
  | O => d
  | S fuel' =>
      match compare_bin_dec m e 1 (d - 1) with
      | Lt => find_decpt fuel' m e (d - 1)%Z
      | _ => d
      end
  end.

Definition decpt_of (m : positive) (e : Z) : Z := find_decpt 640 m e 310.

(** Does the decimal [c * 10^q] read back as the float [m * 2^e]? *)
Definition reads_back (m : positive) (e c q : Z) : bool :=
  match of_decimal false c q with
  | S754_finite _ m' e' => (Pos.eqb m m' && Z.eqb e e')%bool
  | _ => false
  end.

(** The shortest decimal [c * 10^q] that reads back as [m * 2^e], the
    closest to it among those of that length: tried with [k], [k+1], ...
    significant digits. *)
Fixpoint shortest (fuel : nat) (m : positive) (e d : Z) (k : Z) : Z * Z :=
  let q := (d - k)%Z in
  let lo := (Z.pos m * 2 ^ Z.max e 0 * 10 ^ Z.max (- q) 0
             / (2 ^ Z.max (- e) 0 * 10 ^ Z.max q 0))%Z in
  let hi := (lo + 1)%Z in
  let next :=
    match fuel with
    | O => (lo, q)
    | S fuel' => shortest fuel' m e d (k + 1)%Z
    end in
  match reads_back m e lo q, reads_back m e hi q with
  | true, true =>
      match compare_bin_dec m (e + 1) (2 * lo + 1) q with
      | Lt => (lo, q)
      | Gt => (hi, q)
      | Eq => if Z.even lo then (lo, q) else (hi, q)
      end
  | true, false => (lo, q)
  | false, true => (hi, q)
  | false, false => next
  end.

Fixpoint strip_zeros (fuel : nat) (c q : Z) : Z * Z :=
  match fuel with
  | O => (c, q)
  | S fuel' =>
      if ((c mod 10 =? 0) && (0 <? c))%Z%bool then strip_zeros fuel' (c / 10)%Z (q + 1)%Z
      else (c, q)
  end.

(** The digits and decimal point position [repr] prints for [m * 2^e]. *)
Definition shortest_digits (m : positive) (e : Z) : string * Z :=
  let '(c, q) := shortest 17 m e (decpt_of m e) 1 in
  let '(c, q) := strip_zeros 20 c q in
  let ds := digits c in
  (ds, (q + Z.of_nat (String.length ds))%Z).

(** [repr]'s layout: exponent notation when the decimal point position is
    at most [-4] or above [16], else fixed notation with [.0] added to an
    integer. *)
Definition repr_layout (ds : string) (decpt : Z) : string :=
  let n := String.length ds in
  if ((decpt <=? -4) || (16 <? decpt))%Z%bool then
    let ex := (decpt - 1)%Z in
    substring 0 1 ds
    ++ (if (1 <? n)%nat then "." ++ substring 1 (n - 1) ds else "")
    ++ "e" ++ (if (ex <? 0)%Z then "-" else "+") ++ pad_digits 2 (Z.abs ex)
  else if (decpt <=? 0)%Z then
    "0." ++ zeros (Z.to_nat (- decpt)) ++ ds
  else if (decpt <? Z.of_nat n)%Z then
    substring 0 (Z.to_nat decpt) ds ++ "." ++ substring (Z.to_nat decpt) (n - Z.to_nat decpt) ds
  else
    ds ++ zeros (Z.to_nat decpt - n) ++ ".0".

(** [repr(x)] of a float, which is also [str(x)] and what an f-string
    field without a format prints. *)
Definition repr_float (x : float) : string :=
  match Prim2SF x with
  | S754_nan => "nan"
  | S754_infinity s => sign_string s ++ "inf"
  | S754_zero s => sign_string s ++ "0.0"
  | S754_finite s m e =>
      let '(ds, decpt) := shortest_digits m e in
      sign_string s ++ repr_layout ds decpt
  end.

(** [str] of the result of [dict.get(key)]: [None] for a missing key. *)
Definition str_opt (v : option float) : string :=
  match v with
  | None => "None"
  | Some f => repr_float f
  end.

End Py.

(** [x > y] on floats. *)
Notation "x >? y" := (PrimFloat.ltb y x) (at level 70, no associativity) : float_scope.

(** ** Dictionaries and lists *)

(** A dict literal, in insertion order. *)
Definition dict (V : Type) : Type := list (string * V).

Fixpoint dict_get {V : Type} (d : dict V) (key : string) : option V :=
  match d with
  | [] => None
  | (k, v) :: d' => if String.eqb k key then Some v else dict_get d' key
  end.

Definition dict_get_default {V : Type} (d : dict V) (key : string) (default : V) : V :=
  match dict_get d key with
  | Some v => v
  | None => default
  end.

(** Truth value of a list: non-empty. *)
Definition truthy {A : Type} (l : list A) : bool :=
  match l with
  | [] => false
  | _ :: _ => true
  end.

(** A value stored in the [computed] dict. *)
Inductive value : Type :=
  | Num (n : Py.num)
  | Str (s : string).

(** ** The two message lists of the evaluator *)

Module Log.

Record t : Type := mk { alarms : list string; warnings : list string }.

Definition empty : t := mk [] [].

(** [alarms.append(msg)] and [warnings.append(msg)]. *)
Definition alarm (msg : string) (l : t) : t := mk (alarms l ++ [msg]) (warnings l).
Definition warn (msg : string) (l : t) : t := mk (alarms l) (warnings l ++ [msg]).

Definition app (l1 l2 : t) : t := mk (alarms l1 ++ alarms l2) (warnings l1 ++ warnings l2).

End Log.

(** ** The result *)

Record EvaluationResult : Type := mkResult {
  status : string;
  alarms : list string;
  warnings : list string;
  computed : dict value
}.

(** ** The evaluator, rule by rule

    Each block of the source between two section comments is a function on
    the message lists; [evaluate_anesthesia_realistic] runs them in the
    source's order. *)

Section Rules.

Local Open Scope float_scope.

(** Validate basic numeric sanity. *)
Definition validate (weight_kg fio2 fresh_gas_flow_lpm agent_percent
                     resp_rate_bpm tidal_volume_ml : float) (l : Log.t) : Log.t :=
  let l := if weight_kg <=? 0 then
             Log.alarm "Invalid weight (must be > 0 kg)." l else l in
  let l := if (fio2 <? 0) || (fio2 >? 100) then
             Log.alarm "Invalid FiO₂ (must be between 0 and 100%)." l else l in
  let l := if fresh_gas_flow_lpm <? 0 then
             Log.alarm "Invalid fresh gas flow (cannot be negative)." l else l in
  let l := if agent_percent <? 0 then
             Log.alarm "Invalid agent concentration (cannot be negative)." l else l in
  let l := if resp_rate_bpm <? 0 then
             Log.alarm "Invalid respiratory rate (cannot be negative)." l else l in
  let l := if tidal_volume_ml <? 0 then
             Log.alarm "Invalid tidal volume (cannot be negative)." l else l in
  l.

(** Oxygen safety. *)
Definition oxygen_safety (fio2 : float) (hypoxic_guard_enabled : bool) (l : Log.t) : Log.t :=
  let l :=
    if fio2 <? 21 then
      Log.alarm "FiO₂ < 21% is not physiologically valid for delivered oxygen mixture." l
    else if fio2 <? 30 then
      Log.alarm "HYPOXIC MIXTURE RISK: FiO₂ < 30% (high priority)." l
    else if fio2 <? 40 then
      Log.warn "Low FiO₂ (30–39%): monitor oxygenation & clinical context." l
    else l in
  let l :=
    if hypoxic_guard_enabled && (fio2 <? 25) then
      Log.alarm "Hypoxic Guard: FiO₂ below 25% → delivery should be inhibited." l
    else l in
  l.

(** Fresh gas flow (FGF) reasonableness. *)
Definition fresh_gas_flow (fresh_gas_flow_lpm agent_percent : float) (l : Log.t) : Log.t :=
  let l :=
    if (fresh_gas_flow_lpm =? 0) && (agent_percent >? 0) then
      Log.alarm "Agent set > 0% but FGF = 0 → inconsistent delivery (check settings)." l
    else if (fresh_gas_flow_lpm <=? 0.3) && (agent_percent >? 0) then
      Log.alarm "FGF very low with volatile agent → inadequate wash-in / unstable concentration." l
    else l in
  let l :=
    if fresh_gas_flow_lpm <? 0.5 then
      Log.warn "Very low FGF (<0.5 L/min): risk of slow wash-in & CO₂ absorber dependence." l
    else l in
  let l :=
    if fresh_gas_flow_lpm >? 10 then
      Log.warn "High FGF (>10 L/min): wasteful, drying, heat loss risk." l
    else l in
  l.

(** Agent limits. *)
Definition agent_alarm_max : dict float :=
  [("Sevoflurane", 4.0); ("Isoflurane", 3.0); ("Desflurane", 10.0)].
Definition agent_warn_high : dict float :=
  [("Sevoflurane", 3.0); ("Isoflurane", 2.5); ("Desflurane", 8.0)].

Definition agent_limits (agent : string) (agent_percent : float) (l : Log.t) : Log.t :=
  if agent_percent >? dict_get_default agent_alarm_max agent 5.0 then
    Log.alarm (agent ++ " concentration too high (>"
               ++ Py.str_opt (dict_get agent_alarm_max agent) ++ "%).")%string l
  else if agent_percent >? dict_get_default agent_warn_high agent 3.0 then
    Log.warn (agent ++ " concentration high (>"
              ++ Py.str_opt (dict_get agent_warn_high agent) ++ "%): consider reducing.")%string l
  else l.

(** VT alarms / warnings (mL/kg). *)
Definition vt_checks (vt_ml_per_kg : Py.num) (vt_rec_low vt_rec_high : float) (l : Log.t) : Log.t :=
  let l :=
    if Py.ltb vt_ml_per_kg 4.0 then
      Log.alarm ("VT too low: " ++ Py.format_f 1 vt_ml_per_kg ++ " mL/kg (<4).")%string l
    else if Py.ltb vt_ml_per_kg vt_rec_low then
      Log.warn ("VT below recommended: " ++ Py.format_f 1 vt_ml_per_kg ++ " mL/kg (target "
                ++ Py.repr_float vt_rec_low ++ "-" ++ Py.repr_float vt_rec_high ++ ").")%string l
    else l in
  let l :=
    if Py.gtb vt_ml_per_kg 10.0 then
      Log.alarm ("VT too high: " ++ Py.format_f 1 vt_ml_per_kg ++ " mL/kg (>10).")%string l
    else if Py.gtb vt_ml_per_kg vt_rec_high then
      Log.warn ("VT above recommended: " ++ Py.format_f 1 vt_ml_per_kg ++ " mL/kg (target "
                ++ Py.repr_float vt_rec_low ++ "-" ++ Py.repr_float vt_rec_high ++ ").")%string l
    else l in
  l.

(** RR safety. *)
Definition rr_safety (resp_rate_bpm : float) (l : Log.t) : Log.t :=
  if resp_rate_bpm <? 6 then
    Log.alarm "APNEA / severe bradypnea: RR < 6 bpm." l
  else if resp_rate_bpm <? 8 then
    Log.warn "Low RR (6–7 bpm): monitor ventilation adequacy." l
  else if resp_rate_bpm >? 35 then
    Log.warn "High RR (>35 bpm): possible distress or overventilation." l
  else l.

(** Minute ventilation adequacy. *)
Definition minute_ventilation (mv_lpm mv_alarm_low mv_warn_low : float) (l : Log.t) : Log.t :=
  if mv_lpm <? mv_alarm_low then
    Log.alarm ("Low minute ventilation: MV " ++ Py.format_f_float 1 mv_lpm
               ++ " L/min (too low).")%string l
  else if mv_lpm <? mv_warn_low then
    Log.warn ("Borderline MV: " ++ Py.format_f_float 1 mv_lpm
              ++ " L/min (consider increasing VT/RR).")%string l
  else l.

(** Airway pressure. *)
Definition airway_pressure (airway_pressure_cmh2o : float) (l : Log.t) : Log.t :=
  if airway_pressure_cmh2o >? 40 then
    Log.alarm "HIGH AIRWAY PRESSURE > 40 cmH₂O (barotrauma risk)." l
  else if airway_pressure_cmh2o >? 30 then
    Log.warn "Elevated airway pressure (30–40 cmH₂O)." l
  else l.

(** Disconnection / leak suspicion: low pressure and low MV. *)
Definition disconnection (airway_pressure_cmh2o mv_lpm mv_warn_low : float) (l : Log.t) : Log.t :=
  if (airway_pressure_cmh2o <? 5) && (mv_lpm <? mv_warn_low) then
    Log.alarm "Possible DISCONNECTION/LEAK: low pressure AND low ventilation." l
  else l.

(** VT and MV ranges based on patient type:
    [(vt_rec_low, vt_rec_high, mv_alarm_low, mv_warn_low)]. *)
Definition ranges (patient_type : string) : float * float * float * float :=
  if String.eqb patient_type "adult" then (6.0, 8.0, 3.0, 4.0)
  else (5.0, 8.0, 0.8, 1.2).

(** [tidal_volume_ml / weight_kg if weight_kg > 0 else 0]. *)
Definition vt_per_kg (tidal_volume_ml weight_kg : float) : outcome Py.num :=
  if weight_kg >? 0 then
    q <- Py.truediv tidal_volume_ml weight_kg ;; Returns (Py.Float q)
  else Returns (Py.Int 0).

Definition evaluate_anesthesia_realistic
    (patient_type : string) (weight_kg fio2 fresh_gas_flow_lpm : float)
    (agent : string) (agent_percent airway_pressure_cmh2o tidal_volume_ml
    resp_rate_bpm : float) (hypoxic_guard_enabled : bool)
    : outcome EvaluationResult :=
  let l := Log.empty in
  let l := validate weight_kg fio2 fresh_gas_flow_lpm agent_percent
                    resp_rate_bpm tidal_volume_ml l in
  (* If invalids exist, stop further clinical reasoning *)
  if truthy (Log.alarms l) then
    Returns (mkResult "ALARM" (Log.alarms l) (Log.warnings l) [])
  else
    let l := oxygen_safety fio2 hypoxic_guard_enabled l in
    let l := fresh_gas_flow fresh_gas_flow_lpm agent_percent l in
    let l := agent_limits agent agent_percent l in
    (* Ventilation computations *)
    mv_lpm <- Py.truediv (tidal_volume_ml * resp_rate_bpm) 1000.0 ;;
    vt_ml_per_kg <- vt_per_kg tidal_volume_ml weight_kg ;;
    let '(vt_rec_low, vt_rec_high, mv_alarm_low, mv_warn_low) := ranges patient_type in
    let l := vt_checks vt_ml_per_kg vt_rec_low vt_rec_high l in
    let l := rr_safety resp_rate_bpm l in
    let l := minute_ventilation mv_lpm mv_alarm_low mv_warn_low l in
    let l := airway_pressure airway_pressure_cmh2o l in
    let l := disconnection airway_pressure_cmh2o mv_lpm mv_warn_low l in
    let status :=
      if truthy (Log.alarms l) then "ALARM"
      else if truthy (Log.warnings l) then "WARNING" else "RUNNING" in
    let computed :=
      [ ("MV_Lmin", Num (Py.round (Py.Float mv_lpm) 2));
        ("VT_mLkg", Num (Py.round vt_ml_per_kg 2));
        ("VT_target_mLkg",
         Str (Py.repr_float vt_rec_low ++ "-" ++ Py.repr_float vt_rec_high)%string) ]%string in
    Returns (mkResult status (Log.alarms l) (Log.warnings l) computed).

End Rules.

(** ** The messages, by rule *)

Module Msg.

Definition invalid_weight := "Invalid weight (must be > 0 kg).".
Definition invalid_fio2 := "Invalid FiO₂ (must be between 0 and 100%).".
Definition invalid_fgf := "Invalid fresh gas flow (cannot be negative).".
Definition invalid_agent := "Invalid agent concentration (cannot be negative).".
Definition invalid_rr := "Invalid respiratory rate (cannot be negative).".
Definition invalid_vt := "Invalid tidal volume (cannot be negative).".

Definition fio2_below_21 :=
  "FiO₂ < 21% is not physiologically valid for delivered oxygen mixture.".
Definition hypoxic_mixture_risk := "HYPOXIC MIXTURE RISK: FiO₂ < 30% (high priority).".
Definition low_fio2 := "Low FiO₂ (30–39%): monitor oxygenation & clinical context.".
Definition hypoxic_guard :=
  "Hypoxic Guard: FiO₂ below 25% → delivery should be inhibited.".

Definition fgf_zero :=
  "Agent set > 0% but FGF = 0 → inconsistent delivery (check settings).".
Definition fgf_too_low :=
  "FGF very low with volatile agent → inadequate wash-in / unstable concentration.".
Definition slow_wash_in :=
  "Very low FGF (<0.5 L/min): risk of slow wash-in & CO₂ absorber dependence.".
Definition high_fgf := "High FGF (>10 L/min): wasteful, drying, heat loss risk.".

Definition agent_too_high (agent : string) : string :=
  agent ++ " concentration too high (>"
  ++ Py.str_opt (dict_get agent_alarm_max agent) ++ "%).".
Definition agent_high (agent : string) : string :=
  agent ++ " concentration high (>"
  ++ Py.str_opt (dict_get agent_warn_high agent) ++ "%): consider reducing.".

Definition apnea := "APNEA / severe bradypnea: RR < 6 bpm.".
Definition low_rr := "Low RR (6–7 bpm): monitor ventilation adequacy.".
Definition high_rr := "High RR (>35 bpm): possible distress or overventilation.".

Definition low_mv (mv_lpm : float) : string :=
  "Low minute ventilation: MV " ++ Py.format_f_float 1 mv_lpm ++ " L/min (too low).".

Definition borderline_mv (mv_lpm : float) : string :=
  "Borderline MV: " ++ Py.format_f_float 1 mv_lpm ++ " L/min (consider increasing VT/RR).".

Definition vt_too_low (vt_ml_per_kg : Py.num) : string :=
  "VT too low: " ++ Py.format_f 1 vt_ml_per_kg ++ " mL/kg (<4).".
Definition vt_below (vt_ml_per_kg : Py.num) (vt_rec_low vt_rec_high : float) : string :=
  "VT below recommended: " ++ Py.format_f 1 vt_ml_per_kg ++ " mL/kg (target "
  ++ Py.repr_float vt_rec_low ++ "-" ++ Py.repr_float vt_rec_high ++ ").".
Definition vt_too_high (vt_ml_per_kg : Py.num) : string :=
  "VT too high: " ++ Py.format_f 1 vt_ml_per_kg ++ " mL/kg (>10).".
Definition vt_above (vt_ml_per_kg : Py.num) (vt_rec_low vt_rec_high : float) : string :=
  "VT above recommended: " ++ Py.format_f 1 vt_ml_per_kg ++ " mL/kg (target "
  ++ Py.repr_float vt_rec_low ++ "-" ++ Py.repr_float vt_rec_high ++ ").".

Definition high_pressure := "HIGH AIRWAY PRESSURE > 40 cmH₂O (barotrauma risk).".
Definition elevated_pressure := "Elevated airway pressure (30–40 cmH₂O).".

Definition disconnection := "Possible DISCONNECTION/LEAK: low pressure AND low ventilation.".

End Msg.

(** ** Vocabulary of the properties *)

Section Vocabulary.

Local Open Scope float_scope.

(** The input passes every validity check of the first stage. *)
Definition valid_inputs (weight_kg fio2 fresh_gas_flow_lpm agent_percent
                         resp_rate_bpm tidal_volume_ml : float) : bool :=
  negb (weight_kg <=? 0)
  && negb ((fio2 <? 0) || (fio2 >? 100))
  && negb (fresh_gas_flow_lpm <? 0)
  && negb (agent_percent <? 0)
  && negb (resp_rate_bpm <? 0)
  && negb (tidal_volume_ml <? 0).

(** One message per violated check, in the order weight, FiO₂, fresh gas
    flow, agent concentration, respiratory rate, tidal volume. *)
Definition violations (weight_kg fio2 fresh_gas_flow_lpm agent_percent
                       resp_rate_bpm tidal_volume_ml : float) : list string :=
  (if weight_kg <=? 0 then [Msg.invalid_weight] else [])
  ++ (if (fio2 <? 0) || (fio2 >? 100) then [Msg.invalid_fio2] else [])
  ++ (if fresh_gas_flow_lpm <? 0 then [Msg.invalid_fgf] else [])
  ++ (if agent_percent <? 0 then [Msg.invalid_agent] else [])
  ++ (if resp_rate_bpm <? 0 then [Msg.invalid_rr] else [])
  ++ (if tidal_volume_ml <? 0 then [Msg.invalid_vt] else []).

(** The six messages of the validity checks, in check order. *)
Definition validity_messages : list string :=
  [Msg.invalid_weight; Msg.invalid_fio2; Msg.invalid_fgf; Msg.invalid_agent;
   Msg.invalid_rr; Msg.invalid_vt].

(** Number of occurrences of a message in a list. *)
Definition count (msg : string) (l : list string) : nat :=
  List.length (List.filter (String.eqb msg) l).

(** The last [n] characters of a message, last one first. *)
Definition last_chars (n : nat) (s : string) : list ascii :=
  firstn n (rev (list_ascii_of_string s)).

(** A rule that fires adds its message once. *)
Definition once (fires : bool) : nat := if fires then 1%nat else 0%nat.

(** The per-agent thresholds the agent rule compares with. *)
Definition ceiling (agent : string) : float := dict_get_default agent_alarm_max agent 5.0.
Definition warn_high (agent : string) : float := dict_get_default agent_warn_high agent 3.0.

(** The minute-ventilation warn-low threshold of a patient type. *)
Definition mv_warn_low (patient_type : string) : float :=
  if String.eqb patient_type "adult" then 4.0 else 1.2.

(** The derived metrics. *)
Definition minute_volume (tidal_volume_ml resp_rate_bpm : float) : float :=
  tidal_volume_ml * resp_rate_bpm / 1000.0.

Definition vt_value (tidal_volume_ml weight_kg : float) : Py.num :=
  if weight_kg >? 0 then Py.Float (tidal_volume_ml / weight_kg) else Py.Int 0.

(** The message lists after all clinical rules have run. *)
Definition clinical_log
    (patient_type : string) (weight_kg fio2 fresh_gas_flow_lpm : float)
    (agent : string) (agent_percent airway_pressure_cmh2o tidal_volume_ml
    resp_rate_bpm : float) (hypoxic_guard_enabled : bool) : Log.t :=
  let mv_lpm := minute_volume tidal_volume_ml resp_rate_bpm in
  let vt_ml_per_kg := vt_value tidal_volume_ml weight_kg in
  let '(vt_rec_low, vt_rec_high, mv_alarm_low, mv_warn_low) := ranges patient_type in
  disconnection airway_pressure_cmh2o mv_lpm mv_warn_low
    (airway_pressure airway_pressure_cmh2o
      (minute_ventilation mv_lpm mv_alarm_low mv_warn_low
        (rr_safety resp_rate_bpm
          (vt_checks vt_ml_per_kg vt_rec_low vt_rec_high
            (agent_limits agent agent_percent
              (fresh_gas_flow fresh_gas_flow_lpm agent_percent
                (oxygen_safety fio2 hypoxic_guard_enabled Log.empty))))))).

Definition status_of (l : Log.t) : string :=
  if truthy (Log.alarms l) then "ALARM"
  else if truthy (Log.warnings l) then "WARNING" else "RUNNING".

Definition computed_of (patient_type : string) (weight_kg tidal_volume_ml
                        resp_rate_bpm : float) : dict value :=
  let '(vt_rec_low, vt_rec_high, _, _) := ranges patient_type in
  [ ("MV_Lmin", Num (Py.round (Py.Float (minute_volume tidal_volume_ml resp_rate_bpm)) 2));
    ("VT_mLkg", Num (Py.round (vt_value tidal_volume_ml weight_kg) 2));
    ("VT_target_mLkg",
     Str (Py.repr_float vt_rec_low ++ "-" ++ Py.repr_float vt_rec_high)%string) ]%string.

End Vocabulary.

(** ** Vocabulary of the further properties *)

Section Thresholds.

Local Open Scope float_scope.

(** The ranges of a patient type, one by one. *)
Definition vt_rec_low (patient_type : string) : float :=
  if String.eqb patient_type "adult" then 6.0 else 5.0.

Definition vt_rec_high (patient_type : string) : float := 8.0.

Definition mv_alarm_low (patient_type : string) : float :=
  if String.eqb patient_type "adult" then 3.0 else 0.8.

End Thresholds.

(** [l1] is [l2] with some elements left out, the order kept. *)
Inductive subseq {A : Type} : list A -> list A -> Prop :=
  | subseq_nil : subseq [] []
  | subseq_skip (x : A) (l1 l2 : list A) : subseq l1 l2 -> subseq l1 (x :: l2)
  | subseq_keep (x : A) (l1 l2 : list A) : subseq l1 l2 -> subseq (x :: l1) (x :: l2).

(** Every alarm the clinical rules can raise for an input, in the order
    the rules run. *)
Definition alarm_candidates (patient_type : string) (weight_kg : float) (agent : string)
    (tidal_volume_ml resp_rate_bpm : float) : list string :=
  [ Msg.fio2_below_21; Msg.hypoxic_mixture_risk; Msg.hypoxic_guard;
    Msg.fgf_zero; Msg.fgf_too_low;
    Msg.agent_too_high agent;
    Msg.vt_too_low (vt_value tidal_volume_ml weight_kg);
    Msg.vt_too_high (vt_value tidal_volume_ml weight_kg);
    Msg.apnea;
    Msg.low_mv (minute_volume tidal_volume_ml resp_rate_bpm);
    Msg.high_pressure;
    Msg.disconnection ].

(** Every warning the clinical rules can raise for an input, in the order
    the rules run. *)
Definition warning_candidates (patient_type : string) (weight_kg : float) (agent : string)
    (tidal_volume_ml resp_rate_bpm : float) : list string :=
  [ Msg.low_fio2;
    Msg.slow_wash_in; Msg.high_fgf;
    Msg.agent_high agent;
    Msg.vt_below (vt_value tidal_volume_ml weight_kg)
                 (vt_rec_low patient_type) (vt_rec_high patient_type);
    Msg.vt_above (vt_value tidal_volume_ml weight_kg)
                 (vt_rec_low patient_type) (vt_rec_high patient_type);
    Msg.low_rr; Msg.high_rr;
    Msg.borderline_mv (minute_volume tidal_volume_ml resp_rate_bpm);
    Msg.elevated_pressure ].

(** ** The start-mode window

    [AnesthesiaStartRealistic]: the widgets the handlers read and write.
    The two combo boxes hold their current text, the seven line edits
    their text, the output box the paragraphs appended to it. *)

Module Window.

Record t : Type := mk {
  patient_type : string;
  weight : string;
  fio2 : string;
  fgf : string;
  agent : string;
  agent_pct : string;
  pressure : string;
  vt : string;
  rr : string;
  hypoxic_guard : bool;
  banner : string;
  banner_sheet : string;
  output : list string
}.

(** [banner.setText], [banner.setStyleSheet] and the new content of the
    output box, the input widgets untouched. *)
Definition show (w : t) (text sheet : string) (paragraphs : list string) : t :=
  mk (patient_type w) (weight w) (fio2 w) (fgf w) (agent w) (agent_pct w)
     (pressure w) (vt w) (rr w) (hypoxic_guard w) text sheet paragraphs.

End Window.

(** What can leave a handler instead of a result: a missing key of a dict
    subscript, or an exception of the evaluator, which the handler does
    not catch. *)
Inductive escaped : Type :=
  | KeyError (key : string)
  | Uncaught (e : exn).

Inductive ran (A : Type) : Type :=
  | Done (a : A)
  | Escaped (e : escaped).

Arguments Done {A} a.
Arguments Escaped {A} e.

(** [d[key]]. *)
Definition subscript {V : Type} (d : dict V) (key : string) : ran V :=
  match dict_get d key with
  | Some v => Done v
  | None => Escaped (KeyError key)
  end.

Definition newline : string := String (ascii_of_nat 10) "".

(** [banner_style(bg)]: the style sheet of the banner, the f-string of the
    source line by line. *)
Definition banner_style (bg : string) : string :=
  newline
  ++ "            QLabel {" ++ newline
  ++ "                background-color:" ++ bg ++ ";" ++ newline
  ++ "                color:white;" ++ newline
  ++ "                font-size:28px;" ++ newline
  ++ "                font-weight:900;" ++ newline
  ++ "                padding:16px;" ++ newline
  ++ "                border-radius:10px;" ++ newline
  ++ "            }" ++ newline
  ++ "        ".

(** [str(v)] of a value of the computed dict, as an f-string field prints
    it. *)
Definition str_value (v : value) : string :=
  match v with
  | Num (Py.Float f) => Py.repr_float f
  | Num (Py.Int z) => (if (z <? 0)%Z then "-" else "") ++ Py.digits (Z.abs z)
  | Str s => s
  end.

(** One message as an item of the output box. *)
Definition item (msg : string) : string := "- " ++ msg.

(** The paragraphs of a list of messages under a header, and nothing for
    an empty list. *)
Definition message_block (header : string) (msgs : list string) : list string :=
  if truthy msgs then
    ([header] ++ map item msgs ++ [""])%list
  else [].

Section StartMode.

(** The conversion [float(text)] of a line edit's text; [None] stands for
    its [ValueError]. *)
Variable to_float : string -> option float.

(** The seven conversions of [on_start], in the order of the call's
    arguments; the first [ValueError] ends them. *)
Definition read_numbers (w : Window.t)
    : option (float * float * float * float * float * float * float) :=
  match to_float (Window.weight w) with None => None | Some weight_kg =>
  match to_float (Window.fio2 w) with None => None | Some fio2 =>
  match to_float (Window.fgf w) with None => None | Some fresh_gas_flow_lpm =>
  match to_float (Window.agent_pct w) with None => None | Some agent_percent =>
  match to_float (Window.pressure w) with None => None | Some airway_pressure_cmh2o =>
  match to_float (Window.vt w) with None => None | Some tidal_volume_ml =>
  match to_float (Window.rr w) with None => None | Some resp_rate_bpm =>
    Some (weight_kg, fio2, fresh_gas_flow_lpm, agent_percent, airway_pressure_cmh2o,
          tidal_volume_ml, resp_rate_bpm)
  end end end end end end end.

(** The paragraphs of the computed values: nothing for an empty dict. *)
Definition calculated_block (comp : dict value) : ran (list string) :=
  if truthy comp then
    match subscript comp "MV_Lmin" with Escaped e => Escaped e | Done mv =>
    match subscript comp "VT_mLkg" with Escaped e => Escaped e | Done vt =>
    match subscript comp "VT_target_mLkg" with Escaped e => Escaped e | Done target =>
      Done [ "CALCULATED";
             "- Minute Ventilation (MV): " ++ str_value mv ++ " L/min";
             "- VT per kg: " ++ str_value vt ++ " mL/kg (target " ++ str_value target ++ ")";
             "" ]
    end end end
  else Done [].

Definition on_start (w : Window.t) : ran Window.t :=
  (* self.output.clear() *)
  match read_numbers w with
  | None =>
      Done (Window.show w "ALARM – Invalid numeric input" (banner_style "#e63946")
              ["⛔ Please enter valid numbers in all fields."])
  | Some (weight_kg, fio2, fresh_gas_flow_lpm, agent_percent, airway_pressure_cmh2o,
          tidal_volume_ml, resp_rate_bpm) =>
      match evaluate_anesthesia_realistic (Window.patient_type w) weight_kg fio2
              fresh_gas_flow_lpm (Window.agent w) agent_percent airway_pressure_cmh2o
              tidal_volume_ml resp_rate_bpm (Window.hypoxic_guard w) with
      | Raises e => Escaped (Uncaught e)
      | Returns result =>
          (* Banner based on status *)
          let '(text, sheet) :=
            if String.eqb (status result) "RUNNING" then
              ("RUNNING – Parameters accepted", banner_style "#1faa59")
            else if String.eqb (status result) "WARNING" then
              ("WARNING – Review recommended", banner_style "#f4a261")
            else
              ("⛔ HIGH PRIORITY ALARM – Correct now", banner_style "#e63946") in
          (* Print computed values *)
          match calculated_block (computed result) with
          | Escaped e => Escaped e
          | Done calculated =>
              (* Print alarms/warnings *)
              let paragraphs :=
               (calculated
                ++ message_block "⛔ ALARMS" (alarms result)
                ++ message_block "⚠ WARNINGS" (warnings result)
                ++ (if negb (truthy (alarms result)) && negb (truthy (warnings result))
                    then ["✅ No issues detected. Minimum and clinical checks passed."]
                    else []))%list in
              Done (Window.show w text sheet paragraphs)
          end
      end
  end.

End StartMode.

Definition load_defaults (w : Window.t) : Window.t :=
  Window.mk "adult" "70" "50" "4" "Sevoflurane" "2" "18" "500" "12" true
            "IDLE – Enter parameters and press START" (banner_style "#4a4e69") [].

Definition reset_fields (w : Window.t) : Window.t :=
  Window.mk (Window.patient_type w) "" "" "" (Window.agent w) "" "" "" ""
            (Window.hypoxic_guard w)
            "IDLE – Enter parameters and press START" (banner_style "#4a4e69") [].

(** A conversion for the examples: [float(text)] on non-empty texts of
    ASCII digits, and [None] on every other text. *)
Fixpoint digits_value (s : string) (acc : Z) : option Z :=
  match s with
  | EmptyString => Some acc
  | String c s' =>
      let n := Z.of_nat (nat_of_ascii c) in
      if ((48 <=? n) && (n <=? 57))%Z%bool then digits_value s' (10 * acc + (n - 48))%Z
      else None
  end.

Definition float_of_digits (s : string) : option float :=
  match s with
  | EmptyString => None
  | _ =>
      match digits_value s 0 with
      | Some z => Some (SF2Prim (Py.of_decimal false z 0))
      | None => None
      end
  end.

(** * Properties *)

(** ** The order on floats

    [SFcompare] is a total preorder on the values that are not NaN; the
    facts below are what the thresholds of the rules need. *)

Module FloatOrder.

(** Case analysis on every integer comparison in sight. *)
Ltac compare_cases :=
  change (PosDef.Pos.compare_cont Eq) with Pos.compare in *;
  repeat match goal with
  | |- context [(?a ?= ?b)%Z] => destruct (Z.compare_spec a b)
  | H : context [(?a ?= ?b)%Z] |- _ => destruct (Z.compare_spec a b)
  | |- context [(?a ?= ?b)%positive] => destruct (Pos.compare_spec a b)
  | H : context [(?a ?= ?b)%positive] |- _ => destruct (Pos.compare_spec a b)
  end;
  simpl in *; subst; try congruence; try lia.

Lemma SFcompare_trans (a b c : spec_float) (c1 c2 : comparison) :
  SFcompare a b = Some c1 -> SFcompare b c = Some c2 ->
  c1 <> Gt -> c2 <> Gt ->
  SFcompare a c = Some (match c1 with Lt => Lt | _ => c2 end).
Proof.
  destruct a as [[]|[]| |[] m1 e1], b as [[]|[]| |[] m2 e2], c as [[]|[]| |[] m3 e3];
    simpl; intros H1 H2 N1 N2;
    try discriminate;
    injection H1 as <-; injection H2 as <-; f_equal; try congruence;
    compare_cases.
Qed.

Lemma SFcompare_antisym (a b : spec_float) :
  SFcompare b a = match SFcompare a b with Some c => Some (CompOpp c) | None => None end.
Proof.
  destruct a as [[]|[]| |[] m1 e1], b as [[]|[]| |[] m2 e2]; simpl; try reflexivity;
    f_equal; compare_cases.
Qed.

Local Open Scope float_scope.

Lemma leb_ltb_trans (a b c : float) :
  (a <=? b) = true -> (b <? c) = true -> (a <? c) = true.
Proof.
  rewrite leb_spec, !ltb_spec. unfold SFleb, SFltb.
  destruct (SFcompare (Prim2SF a) (Prim2SF b)) as [c1|] eqn:H1; try discriminate.
  destruct (SFcompare (Prim2SF b) (Prim2SF c)) as [c2|] eqn:H2; try discriminate.
  intros L1 L2.
  rewrite (SFcompare_trans _ _ _ _ _ H1 H2) by (destruct c1, c2; congruence).
  destruct c1, c2; congruence.
Qed.

Lemma ltb_leb_trans (a b c : float) :
  (a <? b) = true -> (b <=? c) = true -> (a <? c) = true.
Proof.
  rewrite leb_spec, !ltb_spec. unfold SFleb, SFltb.
  destruct (SFcompare (Prim2SF a) (Prim2SF b)) as [c1|] eqn:H1; try discriminate.
  destruct (SFcompare (Prim2SF b) (Prim2SF c)) as [c2|] eqn:H2; try discriminate.
  intros L1 L2.
  rewrite (SFcompare_trans _ _ _ _ _ H1 H2) by (destruct c1, c2; congruence).
  destruct c1, c2; congruence.
Qed.

Lemma ltb_trans (a b c : float) :
  (a <? b) = true -> (b <? c) = true -> (a <? c) = true.
Proof.
  rewrite !ltb_spec. unfold SFltb.
  destruct (SFcompare (Prim2SF a) (Prim2SF b)) as [c1|] eqn:H1; try discriminate.
  destruct (SFcompare (Prim2SF b) (Prim2SF c)) as [c2|] eqn:H2; try discriminate.
  intros L1 L2.
  rewrite (SFcompare_trans _ _ _ _ _ H1 H2) by (destruct c1, c2; congruence).
  destruct c1, c2; congruence.
Qed.

Lemma leb_not_gtb (a b : float) : (a <=? b) = true -> (b <? a) = false.
Proof.
  rewrite leb_spec, ltb_spec. unfold SFleb, SFltb.
  rewrite (SFcompare_antisym (Prim2SF a) (Prim2SF b)).
  destruct (SFcompare (Prim2SF a) (Prim2SF b)) as [[]|]; simpl; congruence.
Qed.

Lemma ltb_not_eqb (a b : float) : (a <? b) = true -> (b =? a) = false.
Proof.
  rewrite eqb_spec, ltb_spec. unfold SFeqb, SFltb.
  rewrite (SFcompare_antisym (Prim2SF a) (Prim2SF b)).
  destruct (SFcompare (Prim2SF a) (Prim2SF b)) as [[]|]; simpl; congruence.
Qed.

Lemma ltb_not_leb (a b : float) : (a <? b) = true -> (b <=? a) = false.
Proof.
  rewrite leb_spec, ltb_spec. unfold SFleb, SFltb.
  rewrite (SFcompare_antisym (Prim2SF a) (Prim2SF b)).
  destruct (SFcompare (Prim2SF a) (Prim2SF b)) as [[]|]; simpl; congruence.
Qed.

Lemma SFcompare_None (a b : spec_float) :
  SFcompare a b = None -> a = S754_nan \/ b = S754_nan.
Proof.
  destruct a as [[]|[]| |[] m1 e1], b as [[]|[]| |[] m2 e2]; simpl;
    intros H; try discriminate; auto.
Qed.

(** Two floats that are not ordered either way: one of them is NaN. *)
Lemma unordered_nan (a b : float) :
  (a <=? b) = false -> (b <? a) = false -> a = nan \/ b = nan.
Proof.
  rewrite leb_spec, ltb_spec. unfold SFleb, SFltb.
  rewrite (SFcompare_antisym (Prim2SF a) (Prim2SF b)).
  destruct (SFcompare (Prim2SF a) (Prim2SF b)) as [[]|] eqn:E; simpl; try congruence.
  intros _ _. destruct (SFcompare_None _ _ E) as [H|H]; [left|right];
    apply Prim2SF_inj; rewrite H; reflexivity.
Qed.

Lemma nan_not_gtb (b : float) : (b <? nan) = false.
Proof.
  rewrite ltb_spec. unfold SFltb. change (Prim2SF nan) with S754_nan.
  destruct (Prim2SF b); reflexivity.
Qed.

End FloatOrder.

(** ** Telling messages apart

    A message is a literal, or a literal frame around formatted numbers or
    the agent name.  Two messages differ as soon as their first characters
    or their last few characters differ. *)

Module Suffix.

Lemma list_ascii_of_string_app (a b : string) :
  list_ascii_of_string (a ++ b) = (list_ascii_of_string a ++ list_ascii_of_string b)%list.
Proof.
  induction a as [|c a IH]; simpl; [reflexivity | now rewrite IH].
Qed.

Lemma length_list_ascii (s : string) :
  List.length (list_ascii_of_string s) = String.length s.
Proof.
  induction s as [|c s IH]; simpl; [reflexivity | now rewrite IH].
Qed.

Lemma length_app (a b : string) :
  String.length (a ++ b) = String.length a + String.length b.
Proof.
  induction a as [|c a IH]; simpl; [reflexivity | now rewrite IH].
Qed.

Lemma last_chars_app (n : nat) (a b : string) :
  n <= String.length b -> last_chars n (a ++ b) = last_chars n b.
Proof.
  intros H. unfold last_chars.
  rewrite list_ascii_of_string_app, rev_app_distr, firstn_app.
  rewrite length_rev, length_list_ascii.
  replace (n - String.length b) with 0 by lia.
  simpl. apply app_nil_r.
Qed.

Lemma eqb_false (n : nat) (x y : string) :
  last_chars n x <> last_chars n y -> String.eqb x y = false.
Proof.
  intros H. apply String.eqb_neq. intros ->. now apply H.
Qed.

End Suffix.

(** The side condition of [Suffix.last_chars_app]. *)
Ltac suffix_length := rewrite ?Suffix.length_app; simpl; lia.

(** The formatted numbers inside a message, as unknown strings. *)
Ltac abstract_numbers :=
  repeat match goal with
  | |- context [Py.repr_float ?x] => generalize (Py.repr_float x); intro
  | |- context [Py.format_f ?k ?x] => generalize (Py.format_f k x); intro
  | |- context [Py.format_f_float ?k ?x] => generalize (Py.format_f_float k x); intro
  | |- context [Py.str_opt ?x] => generalize (Py.str_opt x); intro
  end.

Ltac by_suffix n :=
  apply (Suffix.eqb_false n);
  rewrite ?Suffix.last_chars_app by suffix_length;
  match goal with
  | |- last_chars _ ?x <> last_chars _ ?y => lazy; discriminate
  end.

(** [String.eqb x y = false] for two messages. *)
Ltac differ :=
  unfold Msg.agent_too_high, Msg.agent_high, Msg.low_mv, Msg.borderline_mv,
    Msg.vt_too_low, Msg.vt_below, Msg.vt_too_high, Msg.vt_above;
  abstract_numbers;
  first [ reflexivity | by_suffix 3 | by_suffix 2 ].

(** ** Counting messages *)

Lemma count_nil (m : string) : count m [] = 0.
Proof. reflexivity. Qed.

Lemma count_app (m : string) (l1 l2 : list string) :
  count m (l1 ++ l2) = count m l1 + count m l2.
Proof.
  unfold count. now rewrite filter_app, length_app.
Qed.

Lemma count_same (m : string) (l : list string) : count m (m :: l) = S (count m l).
Proof.
  unfold count. simpl. now rewrite String.eqb_refl.
Qed.

Lemma count_other (m x : string) (l : list string) :
  String.eqb m x = false -> count m (x :: l) = count m l.
Proof.
  unfold count. simpl. now intros ->.
Qed.

Lemma count_In (m : string) (l : list string) : In m l <-> 0 < count m l.
Proof.
  unfold count. induction l as [|x l IH]; simpl.
  - split; [tauto | lia].
  - destruct (String.eqb_spec m x) as [->|N]; simpl.
    + split; [lia | auto].
    + rewrite <- IH. split; [intros [E|H]; [congruence | exact H] | auto].
Qed.

Lemma count_zero_not_In (m : string) (l : list string) : count m l = 0 -> ~ In m l.
Proof.
  rewrite count_In. lia.
Qed.

Lemma In_truthy {A : Type} (x : A) (l : list A) : In x l -> truthy l = true.
Proof.
  destruct l; simpl; [tauto | reflexivity].
Qed.

(** ** The rules only append

    Every rule leaves the messages it finds in place and appends its own:
    its effect on any lists is its effect on the empty ones, appended. *)

Ltac split_ifs :=
  repeat match goal with
  | |- context [if ?c then _ else _] => destruct c
  end.

Ltac frame l :=
  destruct l; unfold Log.alarm, Log.warn, Log.app; split_ifs; simpl;
  rewrite ?app_nil_r, <- ?app_assoc; reflexivity.

Section Frames.

Local Open Scope float_scope.

Lemma app_empty_l (l : Log.t) : Log.app Log.empty l = l.
Proof. now destruct l. Qed.

Lemma oxygen_safety_frame fio2 g l :
  oxygen_safety fio2 g l = Log.app l (oxygen_safety fio2 g Log.empty).
Proof. unfold oxygen_safety. frame l. Qed.

Lemma fresh_gas_flow_frame fgf ap l :
  fresh_gas_flow fgf ap l = Log.app l (fresh_gas_flow fgf ap Log.empty).
Proof. unfold fresh_gas_flow. frame l. Qed.

Lemma agent_limits_frame agent ap l :
  agent_limits agent ap l = Log.app l (agent_limits agent ap Log.empty).
Proof. unfold agent_limits. frame l. Qed.

Lemma vt_checks_frame vt lo hi l :
  vt_checks vt lo hi l = Log.app l (vt_checks vt lo hi Log.empty).
Proof. unfold vt_checks. frame l. Qed.

Lemma rr_safety_frame rr l :
  rr_safety rr l = Log.app l (rr_safety rr Log.empty).
Proof. unfold rr_safety. frame l. Qed.

Lemma minute_ventilation_frame mv al wl l :
  minute_ventilation mv al wl l = Log.app l (minute_ventilation mv al wl Log.empty).
Proof. unfold minute_ventilation. frame l. Qed.

Lemma airway_pressure_frame p l :
  airway_pressure p l = Log.app l (airway_pressure p Log.empty).
Proof. unfold airway_pressure. frame l. Qed.

Lemma disconnection_frame p mv wl l :
  disconnection p mv wl l = Log.app l (disconnection p mv wl Log.empty).
Proof. unfold disconnection. frame l. Qed.

(** The lists after the clinical rules: the contributions of the eight
    rules, in the order the source runs them. *)
Lemma clinical_log_split pt w fio2 fgf agent ap p tv rr g lo hi al wl :
  ranges pt = (lo, hi, al, wl) ->
  clinical_log pt w fio2 fgf agent ap p tv rr g =
  Log.app (oxygen_safety fio2 g Log.empty)
    (Log.app (fresh_gas_flow fgf ap Log.empty)
      (Log.app (agent_limits agent ap Log.empty)
        (Log.app (vt_checks (vt_value tv w) lo hi Log.empty)
          (Log.app (rr_safety rr Log.empty)
            (Log.app (minute_ventilation (minute_volume tv rr) al wl Log.empty)
              (Log.app (airway_pressure p Log.empty)
                 (disconnection p (minute_volume tv rr) wl Log.empty))))))).
Proof.
  intros R. unfold clinical_log. rewrite R.
  rewrite disconnection_frame, airway_pressure_frame, minute_ventilation_frame,
    rr_safety_frame, vt_checks_frame, agent_limits_frame, fresh_gas_flow_frame.
  generalize (oxygen_safety fio2 g Log.empty), (fresh_gas_flow fgf ap Log.empty),
    (agent_limits agent ap Log.empty), (vt_checks (vt_value tv w) lo hi Log.empty),
    (rr_safety rr Log.empty), (minute_ventilation (minute_volume tv rr) al wl Log.empty),
    (airway_pressure p Log.empty), (disconnection p (minute_volume tv rr) wl Log.empty).
  intros [] [] [] [] [] [] [] []. unfold Log.app; simpl.
  now rewrite <- !app_assoc.
Qed.

(** ** Validation *)

Lemma validate_violations w fio2 fgf ap rr tv :
  validate w fio2 fgf ap rr tv Log.empty = Log.mk (violations w fio2 fgf ap rr tv) [].
Proof.
  unfold validate, violations.
  destruct (w <=? 0), ((fio2 <? 0) || (fio2 >? 100)), (fgf <? 0), (ap <? 0),
    (rr <? 0), (tv <? 0); reflexivity.
Qed.

Lemma valid_no_violations w fio2 fgf ap rr tv :
  valid_inputs w fio2 fgf ap rr tv = true -> violations w fio2 fgf ap rr tv = [].
Proof.
  unfold valid_inputs, violations.
  destruct (w <=? 0), ((fio2 <? 0) || (fio2 >? 100)), (fgf <? 0), (ap <? 0),
    (rr <? 0), (tv <? 0); simpl; intros H; try discriminate; reflexivity.
Qed.

Lemma invalid_violations w fio2 fgf ap rr tv :
  valid_inputs w fio2 fgf ap rr tv = false ->
  truthy (violations w fio2 fgf ap rr tv) = true.
Proof.
  unfold valid_inputs, violations.
  destruct (w <=? 0), ((fio2 <? 0) || (fio2 >? 100)), (fgf <? 0), (ap <? 0),
    (rr <? 0), (tv <? 0); simpl; intros H; try discriminate; reflexivity.
Qed.

(** ** The two divisions *)

Lemma truediv_1000 (x : float) : Py.truediv x 1000 = Returns (x / 1000).
Proof. reflexivity. Qed.

(** The division by the weight is guarded: it runs only for a weight
    that compares above zero, hence not equal to it. *)
Lemma vt_per_kg_returns (tv w : float) : vt_per_kg tv w = Returns (vt_value tv w).
Proof.
  unfold vt_per_kg, vt_value, Py.truediv.
  destruct (w >? 0) eqn:G; [|reflexivity].
  now rewrite (FloatOrder.ltb_not_eqb _ _ G).
Qed.

(** ** The two ways the evaluator returns *)

Lemma evaluate_invalid pt w fio2 fgf agent ap p tv rr g :
  valid_inputs w fio2 fgf ap rr tv = false ->
  evaluate_anesthesia_realistic pt w fio2 fgf agent ap p tv rr g =
  Returns (mkResult "ALARM" (violations w fio2 fgf ap rr tv) [] []).
Proof.
  intros V. unfold evaluate_anesthesia_realistic.
  rewrite validate_violations. simpl Log.alarms. simpl Log.warnings.
  now rewrite (invalid_violations _ _ _ _ _ _ V).
Qed.

Lemma evaluate_valid pt w fio2 fgf agent ap p tv rr g :
  valid_inputs w fio2 fgf ap rr tv = true ->
  evaluate_anesthesia_realistic pt w fio2 fgf agent ap p tv rr g =
  Returns (mkResult (status_of (clinical_log pt w fio2 fgf agent ap p tv rr g))
                    (Log.alarms (clinical_log pt w fio2 fgf agent ap p tv rr g))
                    (Log.warnings (clinical_log pt w fio2 fgf agent ap p tv rr g))
                    (computed_of pt w tv rr)).
Proof.
  intros V. unfold evaluate_anesthesia_realistic.
  rewrite validate_violations, (valid_no_violations _ _ _ _ _ _ V).
  cbn [Log.alarms truthy]. change (Log.mk [] []) with Log.empty.
  rewrite truediv_1000, vt_per_kg_returns. cbn [bind].
  unfold clinical_log, computed_of, status_of, minute_volume.
  destruct (ranges pt) as [[[lo hi] al] wl]. reflexivity.
Qed.

End Frames.

(** ** What a rule cannot add

    A message that differs from each message of a rule does not occur in
    what that rule appends. *)

Ltac absent :=
  intros; split_ifs;
  cbn [Log.alarm Log.warn Log.alarms Log.warnings Log.empty List.app];
  rewrite ?count_other by assumption; reflexivity.

Section Absent.

Variable m : string.

Lemma oxygen_alarms_absent fio2 g :
  String.eqb m Msg.fio2_below_21 = false ->
  String.eqb m Msg.hypoxic_mixture_risk = false ->
  String.eqb m Msg.hypoxic_guard = false ->
  count m (Log.alarms (oxygen_safety fio2 g Log.empty)) = 0.
Proof. unfold oxygen_safety. absent. Qed.

Lemma oxygen_warnings_absent fio2 g :
  String.eqb m Msg.low_fio2 = false ->
  count m (Log.warnings (oxygen_safety fio2 g Log.empty)) = 0.
Proof. unfold oxygen_safety. absent. Qed.

Lemma fresh_gas_flow_alarms_absent fgf ap :
  String.eqb m Msg.fgf_zero = false ->
  String.eqb m Msg.fgf_too_low = false ->
  count m (Log.alarms (fresh_gas_flow fgf ap Log.empty)) = 0.
Proof. unfold fresh_gas_flow. absent. Qed.

Lemma fresh_gas_flow_warnings_absent fgf ap :
  String.eqb m Msg.slow_wash_in = false ->
  String.eqb m Msg.high_fgf = false ->
  count m (Log.warnings (fresh_gas_flow fgf ap Log.empty)) = 0.
Proof. unfold fresh_gas_flow. absent. Qed.

Lemma agent_alarms_absent agent ap :
  String.eqb m (Msg.agent_too_high agent) = false ->
  count m (Log.alarms (agent_limits agent ap Log.empty)) = 0.
Proof. unfold agent_limits. absent. Qed.

Lemma agent_warnings_absent agent ap :
  String.eqb m (Msg.agent_high agent) = false ->
  count m (Log.warnings (agent_limits agent ap Log.empty)) = 0.
Proof. unfold agent_limits. absent. Qed.

Lemma vt_alarms_absent vt lo hi :
  String.eqb m (Msg.vt_too_low vt) = false ->
  String.eqb m (Msg.vt_too_high vt) = false ->
  count m (Log.alarms (vt_checks vt lo hi Log.empty)) = 0.
Proof. unfold vt_checks. absent. Qed.

Lemma vt_warnings_absent vt lo hi :
  String.eqb m (Msg.vt_below vt lo hi) = false ->
  String.eqb m (Msg.vt_above vt lo hi) = false ->
  count m (Log.warnings (vt_checks vt lo hi Log.empty)) = 0.
Proof. unfold vt_checks. absent. Qed.

Lemma rr_alarms_absent rr :
  String.eqb m Msg.apnea = false ->
  count m (Log.alarms (rr_safety rr Log.empty)) = 0.
Proof. unfold rr_safety. absent. Qed.

Lemma rr_warnings_absent rr :
  String.eqb m Msg.low_rr = false ->
  String.eqb m Msg.high_rr = false ->
  count m (Log.warnings (rr_safety rr Log.empty)) = 0.
Proof. unfold rr_safety. absent. Qed.

Lemma mv_alarms_absent mv al wl :
  String.eqb m (Msg.low_mv mv) = false ->
  count m (Log.alarms (minute_ventilation mv al wl Log.empty)) = 0.
Proof. unfold minute_ventilation. absent. Qed.

Lemma mv_warnings_absent mv al wl :
  String.eqb m (Msg.borderline_mv mv) = false ->
  count m (Log.warnings (minute_ventilation mv al wl Log.empty)) = 0.
Proof. unfold minute_ventilation. absent. Qed.

Lemma pressure_alarms_absent p :
  String.eqb m Msg.high_pressure = false ->
  count m (Log.alarms (airway_pressure p Log.empty)) = 0.
Proof. unfold airway_pressure. absent. Qed.

Lemma pressure_warnings_absent p :
  String.eqb m Msg.elevated_pressure = false ->
  count m (Log.warnings (airway_pressure p Log.empty)) = 0.
Proof. unfold airway_pressure. absent. Qed.

Lemma disconnection_alarms_absent p mv wl :
  String.eqb m Msg.disconnection = false ->
  count m (Log.alarms (disconnection p mv wl Log.empty)) = 0.
Proof. unfold disconnection. absent. Qed.

Lemma disconnection_warnings_absent p mv wl :
  count m (Log.warnings (disconnection p mv wl Log.empty)) = 0.
Proof. unfold disconnection. absent. Qed.

End Absent.

(** ** Counting over the eight rules *)

Section Totals.

Local Open Scope float_scope.

Lemma count_clinical_alarms m pt w fio2 fgf agent ap p tv rr g lo hi al wl :
  ranges pt = (lo, hi, al, wl) ->
  count m (Log.alarms (clinical_log pt w fio2 fgf agent ap p tv rr g)) =
  (count m (Log.alarms (oxygen_safety fio2 g Log.empty))
   + (count m (Log.alarms (fresh_gas_flow fgf ap Log.empty))
   + (count m (Log.alarms (agent_limits agent ap Log.empty))
   + (count m (Log.alarms (vt_checks (vt_value tv w) lo hi Log.empty))
   + (count m (Log.alarms (rr_safety rr Log.empty))
   + (count m (Log.alarms (minute_ventilation (minute_volume tv rr) al wl Log.empty))
   + (count m (Log.alarms (airway_pressure p Log.empty))
   + count m (Log.alarms (disconnection p (minute_volume tv rr) wl Log.empty)))))))))%nat.
Proof.
  intros R. rewrite (clinical_log_split _ _ _ _ _ _ _ _ _ _ _ _ _ _ R).
  cbn [Log.app Log.alarms]. now rewrite !count_app.
Qed.

Lemma count_clinical_warnings m pt w fio2 fgf agent ap p tv rr g lo hi al wl :
  ranges pt = (lo, hi, al, wl) ->
  count m (Log.warnings (clinical_log pt w fio2 fgf agent ap p tv rr g)) =
  (count m (Log.warnings (oxygen_safety fio2 g Log.empty))
   + (count m (Log.warnings (fresh_gas_flow fgf ap Log.empty))
   + (count m (Log.warnings (agent_limits agent ap Log.empty))
   + (count m (Log.warnings (vt_checks (vt_value tv w) lo hi Log.empty))
   + (count m (Log.warnings (rr_safety rr Log.empty))
   + (count m (Log.warnings (minute_ventilation (minute_volume tv rr) al wl Log.empty))
   + (count m (Log.warnings (airway_pressure p Log.empty))
   + count m (Log.warnings (disconnection p (minute_volume tv rr) wl Log.empty)))))))))%nat.
Proof.
  intros R. rewrite (clinical_log_split _ _ _ _ _ _ _ _ _ _ _ _ _ _ R).
  cbn [Log.app Log.warnings]. now rewrite !count_app.
Qed.

End Totals.

(** Counts in the final lists, rule by rule; the rules that cannot add the
    message drop out. *)
Ltac other_rules :=
  rewrite ?oxygen_alarms_absent by differ;
  rewrite ?oxygen_warnings_absent by differ;
  rewrite ?fresh_gas_flow_alarms_absent by differ;
  rewrite ?fresh_gas_flow_warnings_absent by differ;
  rewrite ?agent_alarms_absent by differ;
  rewrite ?agent_warnings_absent by differ;
  rewrite ?vt_alarms_absent by differ;
  rewrite ?vt_warnings_absent by differ;
  rewrite ?rr_alarms_absent by differ;
  rewrite ?rr_warnings_absent by differ;
  rewrite ?mv_alarms_absent by differ;
  rewrite ?mv_warnings_absent by differ;
  rewrite ?pressure_alarms_absent by differ;
  rewrite ?pressure_warnings_absent by differ;
  rewrite ?disconnection_alarms_absent by differ;
  rewrite ?disconnection_warnings_absent.

Ltac by_rule R :=
  rewrite ?(count_clinical_alarms _ _ _ _ _ _ _ _ _ _ _ _ _ _ _ R),
          ?(count_clinical_warnings _ _ _ _ _ _ _ _ _ _ _ _ _ _ _ R);
  other_rules.

(** ** The oxygen rule alone *)

Section Oxygen.

Local Open Scope float_scope.

Lemma oxygen_below_21 fio2 g :
  count Msg.fio2_below_21 (Log.alarms (oxygen_safety fio2 g Log.empty)) = once (fio2 <? 21).
Proof.
  unfold oxygen_safety. destruct (fio2 <? 21), (fio2 <? 30), (fio2 <? 40), g, (fio2 <? 25);
    reflexivity.
Qed.

Lemma oxygen_hypoxic_risk fio2 g :
  count Msg.hypoxic_mixture_risk (Log.alarms (oxygen_safety fio2 g Log.empty))
  = once (negb (fio2 <? 21) && (fio2 <? 30)).
Proof.
  unfold oxygen_safety. destruct (fio2 <? 21), (fio2 <? 30), (fio2 <? 40), g, (fio2 <? 25);
    reflexivity.
Qed.

Lemma oxygen_low_fio2 fio2 g :
  count Msg.low_fio2 (Log.warnings (oxygen_safety fio2 g Log.empty))
  = once (negb (fio2 <? 21) && negb (fio2 <? 30) && (fio2 <? 40)).
Proof.
  unfold oxygen_safety. destruct (fio2 <? 21), (fio2 <? 30), (fio2 <? 40), g, (fio2 <? 25);
    reflexivity.
Qed.

Lemma oxygen_guard fio2 g :
  count Msg.hypoxic_guard (Log.alarms (oxygen_safety fio2 g Log.empty))
  = once (g && (fio2 <? 25)).
Proof.
  unfold oxygen_safety. destruct (fio2 <? 21), (fio2 <? 30), (fio2 <? 40), g, (fio2 <? 25);
    reflexivity.
Qed.

End Oxygen.

(** ** The fresh gas flow rule alone *)

Section FreshGasFlow.

Local Open Scope float_scope.

(** A flow above zero and at most 0.3 with agent set: the too-low alarm
    and, 0.3 being below 0.5, the slow wash-in warning. *)
Lemma fgf_low_band fgf ap :
  (fgf >? 0) = true -> (fgf <=? 0.3) = true -> (ap >? 0) = true ->
  count Msg.fgf_too_low (Log.alarms (fresh_gas_flow fgf ap Log.empty)) = 1%nat /\
  count Msg.slow_wash_in (Log.warnings (fresh_gas_flow fgf ap Log.empty)) = 1%nat.
Proof.
  intros Hpos Hlow Hagent. unfold fresh_gas_flow.
  rewrite (FloatOrder.ltb_not_eqb _ _ Hpos), Hlow, Hagent.
  assert (Hhalf : (fgf <? 0.5) = true)
    by (apply (FloatOrder.leb_ltb_trans fgf 0.3 0.5); [exact Hlow | reflexivity]).
  rewrite Hhalf. destruct (fgf >? 10); split; reflexivity.
Qed.

End FreshGasFlow.

(** ** The agent rule alone *)

Section Agent.

Local Open Scope float_scope.

Lemma agent_alarm_count agent ap :
  count (Msg.agent_too_high agent) (Log.alarms (agent_limits agent ap Log.empty))
  = once (ap >? ceiling agent).
Proof.
  unfold agent_limits, ceiling.
  destruct (ap >? dict_get_default agent_alarm_max agent 5);
    [|destruct (ap >? dict_get_default agent_warn_high agent 3)];
    cbn [Log.alarm Log.warn Log.alarms Log.warnings Log.empty List.app once];
    [apply count_same | reflexivity | reflexivity].
Qed.

Lemma agent_warning_count agent ap :
  count (Msg.agent_high agent) (Log.warnings (agent_limits agent ap Log.empty))
  = once (negb (ap >? ceiling agent) && (ap >? warn_high agent)).
Proof.
  unfold agent_limits, ceiling, warn_high.
  destruct (ap >? dict_get_default agent_alarm_max agent 5);
    [|destruct (ap >? dict_get_default agent_warn_high agent 3)];
    cbn [Log.alarm Log.warn Log.alarms Log.warnings Log.empty List.app once negb andb];
    [reflexivity | apply count_same | reflexivity].
Qed.

(** The thresholds of an agent outside the tables are the defaults. *)
Lemma unrecognized_agent agent :
  agent <> "Sevoflurane"%string -> agent <> "Isoflurane"%string ->
  agent <> "Desflurane"%string ->
  ceiling agent = 5.0 /\ warn_high agent = 3.0.
Proof.
  intros S I D. unfold ceiling, warn_high, dict_get_default, agent_alarm_max, agent_warn_high.
  cbn [dict_get].
  destruct (String.eqb_spec "Sevoflurane" agent); [congruence|].
  destruct (String.eqb_spec "Isoflurane" agent); [congruence|].
  destruct (String.eqb_spec "Desflurane" agent); [congruence|].
  split; reflexivity.
Qed.

End Agent.

(** ** The respiratory rate rule alone *)

Section RespiratoryRate.

Local Open Scope float_scope.

Lemma rr_apnea rr :
  count Msg.apnea (Log.alarms (rr_safety rr Log.empty)) = once (rr <? 6).
Proof.
  unfold rr_safety. destruct (rr <? 6), (rr <? 8), (rr >? 35); reflexivity.
Qed.

Lemma rr_low rr :
  count Msg.low_rr (Log.warnings (rr_safety rr Log.empty))
  = once (negb (rr <? 6) && (rr <? 8)).
Proof.
  unfold rr_safety. destruct (rr <? 6), (rr <? 8), (rr >? 35); reflexivity.
Qed.

Lemma rr_high rr :
  count Msg.high_rr (Log.warnings (rr_safety rr Log.empty))
  = once (negb (rr <? 6) && negb (rr <? 8) && (rr >? 35)).
Proof.
  unfold rr_safety. destruct (rr <? 6), (rr <? 8), (rr >? 35); reflexivity.
Qed.

(** A float at or above a bound is not below any smaller bound. *)
Lemma not_below (lo bound x : float) :
  (bound <=? lo) = true -> (lo <=? x) = true -> (x <? bound) = false.
Proof.
  intros B L. destruct (x <? bound) eqn:E; [|reflexivity].
  pose proof (FloatOrder.leb_ltb_trans _ _ _ L E) as C.
  now rewrite (FloatOrder.leb_not_gtb _ _ B) in C.
Qed.

Lemma not_below_strict (lo bound x : float) :
  (bound <=? lo) = true -> (lo <? x) = true -> (x <? bound) = false.
Proof.
  intros B L. destruct (x <? bound) eqn:E; [|reflexivity].
  pose proof (FloatOrder.ltb_trans _ _ _ L E) as C.
  now rewrite (FloatOrder.leb_not_gtb _ _ B) in C.
Qed.

End RespiratoryRate.

(** ** Minute ventilation and disconnection *)

Section Ventilation.

Local Open Scope float_scope.

Lemma ranges_warn_low pt lo hi al wl :
  ranges pt = (lo, hi, al, wl) -> wl = mv_warn_low pt.
Proof.
  unfold ranges, mv_warn_low. destruct (String.eqb pt "adult"); congruence.
Qed.

Lemma disconnection_fires p mv wl :
  (p <? 5) = true -> (mv <? wl) = true ->
  count Msg.disconnection (Log.alarms (disconnection p mv wl Log.empty)) = 1%nat.
Proof.
  intros P M. unfold disconnection. rewrite P, M. reflexivity.
Qed.

End Ventilation.

(** A message that occurs in the alarms of the clinical rules makes the
    status ALARM. *)
Lemma alarm_status (m : string) (l : Log.t) :
  (0 < count m (Log.alarms l))%nat -> status_of l = "ALARM".
Proof.
  intros H. apply count_In, In_truthy in H. unfold status_of. now rewrite H.
Qed.

(** ** Validity messages are not clinical messages *)

Section Disjoint.

(** The FiO₂ validity message ends like the agent alarm, in a percent sign
    and a bracket; the characters before them differ. *)
Lemma invalid_fio2_not_agent agent :
  String.eqb Msg.invalid_fio2 (Msg.agent_too_high agent) = false.
Proof.
  unfold Msg.agent_too_high, agent_alarm_max. cbn [dict_get].
  destruct (String.eqb "Sevoflurane" agent);
    [|destruct (String.eqb "Isoflurane" agent);
      [|destruct (String.eqb "Desflurane" agent)]];
    cbn [Py.str_opt];
    match goal with
    | |- context [Py.repr_float ?x] =>
        let s := eval vm_compute in (Py.repr_float x) in
        change (Py.repr_float x) with s
    | _ => idtac
    end;
    by_suffix 5.
Qed.

Lemma validity_message_not_clinical m pt w fio2 fgf agent ap p tv rr g :
  In m validity_messages ->
  count m (Log.alarms (clinical_log pt w fio2 fgf agent ap p tv rr g)) = 0 /\
  count m (Log.warnings (clinical_log pt w fio2 fgf agent ap p tv rr g)) = 0.
Proof.
  intros H. destruct (ranges pt) as [[[lo hi] al] wl] eqn:R.
  simpl in H.
  destruct H as [<-|[<-|[<-|[<-|[<-|[<-|[]]]]]]];
    (split; by_rule R;
     rewrite ?agent_alarms_absent by apply invalid_fio2_not_agent; reflexivity).
Qed.

End Disjoint.

(** * The claims *)

Section Claims.

Local Open Scope float_scope.

(** The evaluator returns a result for every input: no division raises. *)
Lemma evaluate_returns pt w fio2 fgf agent ap p tv rr g :
  exists r, evaluate_anesthesia_realistic pt w fio2 fgf agent ap p tv rr g = Returns r.
Proof.
  destruct (valid_inputs w fio2 fgf ap rr tv) eqn:V.
  - rewrite (evaluate_valid _ _ _ _ _ _ _ _ _ _ V). eauto.
  - rewrite (evaluate_invalid _ _ _ _ _ _ _ _ _ _ V). eauto.
Qed.

(** C1: for every input the evaluator returns a result whose status is
    fixed by precedence: ALARM if the alarms list is non-empty, else
    WARNING if the warnings list is non-empty, else RUNNING; it is one of
    these three values. *)
Theorem status_precedence pt w fio2 fgf agent ap p tv rr g :
  exists r,
    evaluate_anesthesia_realistic pt w fio2 fgf agent ap p tv rr g = Returns r /\
    status r = (if truthy (alarms r) then "ALARM"
                else if truthy (warnings r) then "WARNING" else "RUNNING")%string /\
    (status r = "ALARM" \/ status r = "WARNING" \/ status r = "RUNNING")%string.
Proof.
  destruct (valid_inputs w fio2 fgf ap rr tv) eqn:V.
  - rewrite (evaluate_valid _ _ _ _ _ _ _ _ _ _ V).
    eexists; split; [reflexivity|]. cbn [status alarms warnings]. unfold status_of.
    split; [reflexivity|].
    destruct (truthy _); [|destruct (truthy _)]; auto.
  - rewrite (evaluate_invalid _ _ _ _ _ _ _ _ _ _ V).
    eexists; split; [reflexivity|]. cbn [status alarms warnings].
    rewrite (invalid_violations _ _ _ _ _ _ V). auto.
Qed.

(** C2 (amended): an input on which at least one validity check fires as
    the code tests it (weight <= 0; FiO₂ < 0 or FiO₂ > 100; fresh gas
    flow, agent concentration, respiratory rate or tidal volume < 0)
    makes the evaluator return at once with status ALARM, empty warnings,
    empty computed, and an alarms list holding exactly one message per
    violated check and nothing else; no message in it is one a clinical
    rule can produce.  For FiO₂ the test covers every value outside
    [0,100] except NaN ([fio2_outside_range]). *)
Theorem invalid_input_short_circuit pt w fio2 fgf agent ap p tv rr g :
  valid_inputs w fio2 fgf ap rr tv = false ->
  exists r,
    evaluate_anesthesia_realistic pt w fio2 fgf agent ap p tv rr g = Returns r /\
    status r = "ALARM"%string /\ warnings r = [] /\ computed r = [] /\
    count Msg.invalid_weight (alarms r) = once (w <=? 0) /\
    count Msg.invalid_fio2 (alarms r) = once ((fio2 <? 0) || (fio2 >? 100)) /\
    count Msg.invalid_fgf (alarms r) = once (fgf <? 0) /\
    count Msg.invalid_agent (alarms r) = once (ap <? 0) /\
    count Msg.invalid_rr (alarms r) = once (rr <? 0) /\
    count Msg.invalid_vt (alarms r) = once (tv <? 0) /\
    (forall m, In m (alarms r) ->
       In m validity_messages /\
       forall pt' w' fio2' fgf' agent' ap' p' tv' rr' g',
         ~ In m (Log.alarms (clinical_log pt' w' fio2' fgf' agent' ap' p' tv' rr' g')) /\
         ~ In m (Log.warnings (clinical_log pt' w' fio2' fgf' agent' ap' p' tv' rr' g'))).
Proof.
  intros V. rewrite (evaluate_invalid _ _ _ _ _ _ _ _ _ _ V).
  eexists; split; [reflexivity|]. cbn [status alarms warnings computed].
  repeat (split; [reflexivity|]).
  assert (K : forall m, In m (violations w fio2 fgf ap rr tv) -> In m validity_messages).
  { unfold violations.
    destruct (w <=? 0), ((fio2 <? 0) || (fio2 >? 100)), (fgf <? 0), (ap <? 0),
      (rr <? 0), (tv <? 0); simpl; intros m H; intuition. }
  unfold violations in *.
  destruct (w <=? 0), ((fio2 <? 0) || (fio2 >? 100)), (fgf <? 0), (ap <? 0),
    (rr <? 0), (tv <? 0);
    (repeat (split; [reflexivity|])); intros m H; (split; [exact (K m H)|]);
    intros pt' w' fio2' fgf' agent' ap' p' tv' rr' g';
    destruct (validity_message_not_clinical m pt' w' fio2' fgf' agent' ap' p' tv' rr' g'
                (K m H)) as [Z1 Z2];
    split; apply count_zero_not_In; assumption.
Qed.

Lemma invalid_input_short_circuit_witness :
  valid_inputs (-1) 500 4 2 12 500 = false /\
  exists r,
    evaluate_anesthesia_realistic "adult" (-1) 500 4 "Sevoflurane" 2 18 500 12 true
    = Returns r /\
    status r = "ALARM"%string /\ warnings r = [] /\ computed r = [] /\
    count Msg.invalid_weight (alarms r) = 1%nat /\
    count Msg.invalid_fio2 (alarms r) = 1%nat /\
    count Msg.invalid_fgf (alarms r) = 0%nat /\
    count Msg.invalid_agent (alarms r) = 0%nat /\
    count Msg.invalid_rr (alarms r) = 0%nat /\
    count Msg.invalid_vt (alarms r) = 0%nat.
Proof.
  split; [reflexivity|].
  destruct (invalid_input_short_circuit "adult" (-1) 500 4 "Sevoflurane" 2 18 500 12 true
              eq_refl) as (r & E & S & W & C & K1 & K2 & K3 & K4 & K5 & K6 & _).
  exists r.
  exact (conj E (conj S (conj W (conj C (conj K1 (conj K2 (conj K3 (conj K4
           (conj K5 K6))))))))).
Defined.

(** The FiO₂ check of the gate is "outside [0,100]" for every FiO₂ that
    is not NaN. *)
Lemma fio2_outside_range (fio2 : float) :
  fio2 <> nan ->
  negb ((0 <=? fio2) && (fio2 <=? 100)) = (fio2 <? 0) || (fio2 >? 100).
Proof.
  intros N.
  assert (Z : 0 <> nan)
    by (intros H; apply (f_equal (fun x => x =? x)) in H; discriminate).
  assert (C : 100 <> nan)
    by (intros H; apply (f_equal (fun x => x =? x)) in H; discriminate).
  destruct (fio2 <? 0) eqn:L.
  - now rewrite (FloatOrder.ltb_not_leb _ _ L).
  - destruct (0 <=? fio2) eqn:G.
    + destruct (fio2 >? 100) eqn:H.
      * now rewrite (FloatOrder.ltb_not_leb _ _ H).
      * destruct (fio2 <=? 100) eqn:K; [reflexivity|].
        destruct (FloatOrder.unordered_nan _ _ K H) as [E|E];
          [destruct (N E) | destruct (C E)].
    + destruct (FloatOrder.unordered_nan _ _ G L) as [E|E];
        [destruct (Z E) | destruct (N E)].
Qed.

(** C2 as stated fails for a NaN FiO₂: it is not within [0,100], yet
    neither [nan < 0] nor [nan > 100] holds, so the gate collects nothing
    and the clinical rules run; with the other defaults the result is
    RUNNING with a filled computed dict. *)
Lemma nan_fio2_passes_the_gate :
  ((0 <=? nan) && (nan <=? 100)) = false /\
  valid_inputs 70 nan 4 2 12 500 = true /\
  evaluate_anesthesia_realistic "adult" 70 nan 4 "Sevoflurane" 2 18 500 12 true =
  Returns (mkResult "RUNNING" [] []
             [ ("MV_Lmin", Num (Py.Float 6.0));
               ("VT_mLkg", Num (Py.Float 7.14));
               ("VT_target_mLkg", Str "6.0-8.0") ]%string).
Proof.
  repeat split; vm_compute; reflexivity.
Qed.

(** C9: when validation fails the alarms are the messages of the violated
    checks in the order of the checks: weight, FiO₂, fresh gas flow, agent
    concentration, respiratory rate, tidal volume. *)
Theorem violations_in_check_order pt w fio2 fgf agent ap p tv rr g :
  valid_inputs w fio2 fgf ap rr tv = false ->
  exists r,
    evaluate_anesthesia_realistic pt w fio2 fgf agent ap p tv rr g = Returns r /\
    alarms r =
      ((if w <=? 0 then [Msg.invalid_weight] else [])
       ++ (if (fio2 <? 0) || (fio2 >? 100) then [Msg.invalid_fio2] else [])
       ++ (if fgf <? 0 then [Msg.invalid_fgf] else [])
       ++ (if ap <? 0 then [Msg.invalid_agent] else [])
       ++ (if rr <? 0 then [Msg.invalid_rr] else [])
       ++ (if tv <? 0 then [Msg.invalid_vt] else []))%list.
Proof.
  intros V. rewrite (evaluate_invalid _ _ _ _ _ _ _ _ _ _ V).
  eexists; split; reflexivity.
Qed.

Lemma violations_in_check_order_witness :
  valid_inputs 0 101 (-1) (-2) (-3) (-4) = false /\
  exists r,
    evaluate_anesthesia_realistic "pediatric" 0 101 (-1) "Isoflurane" (-2) 18 (-4) (-3) false
    = Returns r /\
    alarms r = [Msg.invalid_weight; Msg.invalid_fio2; Msg.invalid_fgf;
                Msg.invalid_agent; Msg.invalid_rr; Msg.invalid_vt].
Proof.
  split; [reflexivity|].
  apply (violations_in_check_order "pediatric" 0 101 (-1) "Isoflurane" (-2) 18 (-4) (-3) false).
  reflexivity.
Defined.

(** C6: the default scenario runs clean: status RUNNING, no alarm, no
    warning, MV_Lmin = 6.0, VT_mLkg = 7.14 and the adult target range. *)
Theorem defaults_scenario :
  evaluate_anesthesia_realistic "adult" 70 50 4 "Sevoflurane" 2 18 500 12 true =
  Returns (mkResult "RUNNING" [] []
             [ ("MV_Lmin", Num (Py.Float 6.0));
               ("VT_mLkg", Num (Py.Float 7.14));
               ("VT_target_mLkg", Str "6.0-8.0") ]%string).
Proof.
  vm_compute. reflexivity.
Qed.

(** C3: on a valid input the oxygen rule adds at most one of its three band
    messages (below 21: the invalid-mixture alarm; else below 30: the
    hypoxic-mixture-risk alarm; else below 40: the low-FiO₂ warning), and
    the hypoxic-guard alarm is added exactly when the guard is enabled and
    FiO₂ is below 25, whatever the band.  At FiO₂ = 22 the risk alarm is
    present, the below-21 alarm is not, and the status is ALARM. *)
Theorem oxygen_rule pt w fio2 fgf agent ap p tv rr g :
  valid_inputs w fio2 fgf ap rr tv = true ->
  exists r,
    evaluate_anesthesia_realistic pt w fio2 fgf agent ap p tv rr g = Returns r /\
    count Msg.fio2_below_21 (alarms r) = once (fio2 <? 21) /\
    count Msg.hypoxic_mixture_risk (alarms r) = once (negb (fio2 <? 21) && (fio2 <? 30)) /\
    count Msg.low_fio2 (warnings r)
      = once (negb (fio2 <? 21) && negb (fio2 <? 30) && (fio2 <? 40)) /\
    count Msg.hypoxic_guard (alarms r) = once (g && (fio2 <? 25)) /\
    (count Msg.fio2_below_21 (alarms r ++ warnings r)
     + count Msg.hypoxic_mixture_risk (alarms r ++ warnings r)
     + count Msg.low_fio2 (alarms r ++ warnings r) <= 1)%nat /\
    (fio2 = 22 ->
     In Msg.hypoxic_mixture_risk (alarms r) /\ ~ In Msg.fio2_below_21 (alarms r) /\
     status r = "ALARM"%string).
Proof.
  intros V. rewrite (evaluate_valid _ _ _ _ _ _ _ _ _ _ V).
  eexists; split; [reflexivity|]. cbn [status alarms warnings].
  destruct (ranges pt) as [[[lo hi] al] wl] eqn:R.
  assert (B21 : count Msg.fio2_below_21
                  (Log.alarms (clinical_log pt w fio2 fgf agent ap p tv rr g))
                = once (fio2 <? 21))
    by (by_rule R; rewrite oxygen_below_21; lia).
  assert (B30 : count Msg.hypoxic_mixture_risk
                  (Log.alarms (clinical_log pt w fio2 fgf agent ap p tv rr g))
                = once (negb (fio2 <? 21) && (fio2 <? 30)))
    by (by_rule R; rewrite oxygen_hypoxic_risk; lia).
  assert (B40 : count Msg.low_fio2
                  (Log.warnings (clinical_log pt w fio2 fgf agent ap p tv rr g))
                = once (negb (fio2 <? 21) && negb (fio2 <? 30) && (fio2 <? 40)))
    by (by_rule R; rewrite oxygen_low_fio2; lia).
  repeat split; try assumption.
  - by_rule R. rewrite oxygen_guard. lia.
  - rewrite !count_app, B21, B30, B40.
    assert (W21 : count Msg.fio2_below_21
                    (Log.warnings (clinical_log pt w fio2 fgf agent ap p tv rr g)) = 0%nat)
      by (by_rule R; reflexivity).
    assert (W30 : count Msg.hypoxic_mixture_risk
                    (Log.warnings (clinical_log pt w fio2 fgf agent ap p tv rr g)) = 0%nat)
      by (by_rule R; reflexivity).
    assert (A40 : count Msg.low_fio2
                    (Log.alarms (clinical_log pt w fio2 fgf agent ap p tv rr g)) = 0%nat)
      by (by_rule R; reflexivity).
    rewrite W21, W30, A40.
    destruct (fio2 <? 21), (fio2 <? 30), (fio2 <? 40); simpl; lia.
  - subst fio2. apply count_In. rewrite B30. simpl. lia.
  - subst fio2. apply count_zero_not_In. rewrite B21. reflexivity.
  - subst fio2. apply (alarm_status Msg.hypoxic_mixture_risk). rewrite B30. simpl. lia.
Qed.

Lemma oxygen_rule_witness :
  valid_inputs 70 22 4 2 12 500 = true /\
  exists r,
    evaluate_anesthesia_realistic "adult" 70 22 4 "Sevoflurane" 2 18 500 12 true
    = Returns r /\
    In Msg.hypoxic_mixture_risk (alarms r) /\ ~ In Msg.fio2_below_21 (alarms r) /\
    In Msg.hypoxic_guard (alarms r) /\ status r = "ALARM"%string.
Proof.
  split; [reflexivity|].
  destruct (oxygen_rule "adult" 70 22 4 "Sevoflurane" 2 18 500 12 true eq_refl)
    as (r & E & _ & _ & _ & G & _ & S).
  exists r. destruct (S eq_refl) as (S1 & S2 & S3).
  repeat split; try assumption.
  apply count_In. rewrite G. simpl. lia.
Defined.

(** C7: on a valid input the respiratory-rate rule follows the rate: below
    6 the apnea alarm only; from 6 and below 8 the low-RR warning only;
    from 8 up to 35 nothing; above 35 the high-RR warning only.  So 5 gives
    the alarm, 7 the warning and 9 nothing. *)
Theorem rr_rule pt w fio2 fgf agent ap p tv rr g :
  valid_inputs w fio2 fgf ap rr tv = true ->
  exists r,
    evaluate_anesthesia_realistic pt w fio2 fgf agent ap p tv rr g = Returns r /\
    ((rr <? 6) = true ->
     count Msg.apnea (alarms r) = 1%nat /\
     count Msg.low_rr (warnings r) = 0%nat /\ count Msg.high_rr (warnings r) = 0%nat) /\
    ((6 <=? rr) = true -> (rr <? 8) = true ->
     count Msg.apnea (alarms r) = 0%nat /\
     count Msg.low_rr (warnings r) = 1%nat /\ count Msg.high_rr (warnings r) = 0%nat) /\
    ((8 <=? rr) = true -> (rr <=? 35) = true ->
     count Msg.apnea (alarms r) = 0%nat /\
     count Msg.low_rr (warnings r) = 0%nat /\ count Msg.high_rr (warnings r) = 0%nat) /\
    ((rr >? 35) = true ->
     count Msg.apnea (alarms r) = 0%nat /\
     count Msg.low_rr (warnings r) = 0%nat /\ count Msg.high_rr (warnings r) = 1%nat) /\
    (rr = 5 -> In Msg.apnea (alarms r) /\ ~ In Msg.low_rr (warnings r)) /\
    (rr = 7 -> ~ In Msg.apnea (alarms r) /\ In Msg.low_rr (warnings r)) /\
    (rr = 9 -> ~ In Msg.apnea (alarms r) /\ ~ In Msg.low_rr (warnings r)
               /\ ~ In Msg.high_rr (warnings r)).
Proof.
  intros V. rewrite (evaluate_valid _ _ _ _ _ _ _ _ _ _ V).
  eexists; split; [reflexivity|]. cbn [status alarms warnings].
  destruct (ranges pt) as [[[lo hi] al] wl] eqn:R.
  assert (A : count Msg.apnea (Log.alarms (clinical_log pt w fio2 fgf agent ap p tv rr g))
              = once (rr <? 6))
    by (by_rule R; rewrite rr_apnea; lia).
  assert (L : count Msg.low_rr (Log.warnings (clinical_log pt w fio2 fgf agent ap p tv rr g))
              = once (negb (rr <? 6) && (rr <? 8)))
    by (by_rule R; rewrite rr_low; lia).
  assert (H : count Msg.high_rr (Log.warnings (clinical_log pt w fio2 fgf agent ap p tv rr g))
              = once (negb (rr <? 6) && negb (rr <? 8) && (rr >? 35)))
    by (by_rule R; rewrite rr_high; lia).
  rewrite ?count_In. rewrite A, L, H.
  repeat split.
  1-3: rewrite H0; destruct (rr <? 8), (rr >? 35); reflexivity.
  1-3: rewrite ?(FloatOrder.leb_not_gtb _ _ H0), ?H1; reflexivity.
  1-3: rewrite ?(not_below 8 6 rr eq_refl H0), ?(FloatOrder.leb_not_gtb _ _ H0),
         ?(FloatOrder.leb_not_gtb _ _ H1); reflexivity.
  1-3: rewrite ?(not_below_strict 35 6 rr eq_refl H0),
         ?(not_below_strict 35 8 rr eq_refl H0), ?H0; reflexivity.
  all: subst rr; simpl; lia.
Qed.

Lemma rr_rule_witness :
  valid_inputs 70 50 4 2 7 500 = true /\
  exists r,
    evaluate_anesthesia_realistic "adult" 70 50 4 "Sevoflurane" 2 18 500 7 true
    = Returns r /\
    count Msg.apnea (alarms r) = 0%nat /\
    count Msg.low_rr (warnings r) = 1%nat /\ count Msg.high_rr (warnings r) = 0%nat.
Proof.
  split; [reflexivity|].
  destruct (rr_rule "adult" 70 50 4 "Sevoflurane" 2 18 500 7 true eq_refl)
    as (r & E & _ & B & _).
  exists r. split; [exact E|]. exact (B eq_refl eq_refl).
Defined.

(** C8: on a valid input with fresh gas flow above 0 and at most 0.3 and an
    agent concentration above 0, the FGF-too-low alarm and the slow
    wash-in warning are both in the result, and the status is ALARM. *)
Theorem fgf_overlap pt w fio2 fgf agent ap p tv rr g :
  valid_inputs w fio2 fgf ap rr tv = true ->
  (fgf >? 0) = true -> (fgf <=? 0.3) = true -> (ap >? 0) = true ->
  exists r,
    evaluate_anesthesia_realistic pt w fio2 fgf agent ap p tv rr g = Returns r /\
    count Msg.fgf_too_low (alarms r) = 1%nat /\
    count Msg.slow_wash_in (warnings r) = 1%nat /\
    In Msg.fgf_too_low (alarms r) /\ In Msg.slow_wash_in (warnings r) /\
    status r = "ALARM"%string.
Proof.
  intros V Hpos Hlow Hagent. rewrite (evaluate_valid _ _ _ _ _ _ _ _ _ _ V).
  eexists; split; [reflexivity|]. cbn [status alarms warnings].
  destruct (ranges pt) as [[[lo hi] al] wl] eqn:R.
  destruct (fgf_low_band fgf ap Hpos Hlow Hagent) as [Ha Hw].
  assert (A : count Msg.fgf_too_low
                (Log.alarms (clinical_log pt w fio2 fgf agent ap p tv rr g)) = 1%nat)
    by (by_rule R; rewrite Ha; lia).
  assert (W : count Msg.slow_wash_in
                (Log.warnings (clinical_log pt w fio2 fgf agent ap p tv rr g)) = 1%nat)
    by (by_rule R; rewrite Hw; lia).
  rewrite !count_In, A, W. repeat split; try lia.
  apply (alarm_status Msg.fgf_too_low). lia.
Qed.

Lemma fgf_overlap_witness :
  valid_inputs 70 50 0.2 2 12 500 = true /\
  (0.2 >? 0) = true /\ (0.2 <=? 0.3) = true /\ (2 >? 0) = true /\
  exists r,
    evaluate_anesthesia_realistic "adult" 70 50 0.2 "Sevoflurane" 2 18 500 12 true
    = Returns r /\
    count Msg.fgf_too_low (alarms r) = 1%nat /\
    count Msg.slow_wash_in (warnings r) = 1%nat /\
    In Msg.fgf_too_low (alarms r) /\ In Msg.slow_wash_in (warnings r) /\
    status r = "ALARM"%string.
Proof.
  repeat (split; [reflexivity|]).
  apply (fgf_overlap "adult" 70 50 0.2 "Sevoflurane" 2 18 500 12 true); reflexivity.
Defined.

(** C4: on a valid input with airway pressure below 5 and minute
    ventilation below the warn-low threshold of the patient type (4.0 for
    adult, 1.2 otherwise), the disconnection/leak alarm is in the result.
    For an adult of 70 kg at pressure 3, tidal volume 200 and rate 6, MV is
    1.2 L/min and the low-minute-ventilation alarm is there as well. *)
Theorem disconnection_rule pt w fio2 fgf agent ap p tv rr g :
  valid_inputs w fio2 fgf ap rr tv = true ->
  (p <? 5) = true ->
  (minute_volume tv rr <? mv_warn_low pt) = true ->
  exists r,
    evaluate_anesthesia_realistic pt w fio2 fgf agent ap p tv rr g = Returns r /\
    In Msg.disconnection (alarms r) /\
    status r = "ALARM"%string /\
    (pt = "adult"%string -> w = 70 -> p = 3 -> tv = 200 -> rr = 6 ->
     dict_get (computed r) "MV_Lmin" = Some (Num (Py.Float 1.2)) /\
     In "Low minute ventilation: MV 1.2 L/min (too low)."%string (alarms r)).
Proof.
  intros V P M. rewrite (evaluate_valid _ _ _ _ _ _ _ _ _ _ V).
  eexists; split; [reflexivity|]. cbn [status alarms warnings computed].
  assert (D : (0 < count Msg.disconnection
                     (Log.alarms (clinical_log pt w fio2 fgf agent ap p tv rr g)))%nat).
  { destruct (ranges pt) as [[[lo hi] al] wl] eqn:R.
    rewrite (count_clinical_alarms _ _ _ _ _ _ _ _ _ _ _ _ _ _ _ R).
    rewrite (ranges_warn_low _ _ _ _ _ R) at 2.
    rewrite (disconnection_fires _ _ _ P M). lia. }
  split; [now apply count_In|].
  split; [now apply (alarm_status Msg.disconnection)|].
  intros -> -> -> -> ->. split; [vm_compute; reflexivity|].
  apply count_In.
  rewrite (count_clinical_alarms _ "adult" _ _ _ _ _ _ _ _ _ 6 8 3 4 eq_refl).
  assert (L : count "Low minute ventilation: MV 1.2 L/min (too low)."
                (Log.alarms (minute_ventilation (minute_volume 200 6) 3 4 Log.empty)) = 1%nat)
    by (vm_compute; reflexivity).
  rewrite L. lia.
Qed.

Lemma disconnection_rule_witness :
  valid_inputs 70 50 4 2 6 200 = true /\
  (3 <? 5) = true /\
  (minute_volume 200 6 <? mv_warn_low "adult") = true /\
  exists r,
    evaluate_anesthesia_realistic "adult" 70 50 4 "Sevoflurane" 2 3 200 6 true
    = Returns r /\
    In Msg.disconnection (alarms r) /\
    status r = "ALARM"%string /\
    dict_get (computed r) "MV_Lmin" = Some (Num (Py.Float 1.2)) /\
    In "Low minute ventilation: MV 1.2 L/min (too low)."%string (alarms r).
Proof.
  repeat (split; [reflexivity|]).
  destruct (disconnection_rule "adult" 70 50 4 "Sevoflurane" 2 3 200 6 true
              eq_refl eq_refl eq_refl) as (r & E & D & S & K).
  exists r. destruct (K eq_refl eq_refl eq_refl eq_refl eq_refl) as [K1 K2].
  repeat split; assumption.
Defined.

(** C5: on a valid input the agent rule is exclusive: a concentration above
    the ceiling of the agent (Sevoflurane 4.0, Isoflurane 3.0, Desflurane
    10.0, any other agent 5.0) adds the alarm and not the warning;
    otherwise a concentration above the warn-high threshold (3.0, 2.5,
    8.0, any other agent 3.0) adds the warning and no alarm.  Desflurane
    at 11 gives the alarm for the 10.0 ceiling. *)
Theorem agent_rule pt w fio2 fgf agent ap p tv rr g :
  valid_inputs w fio2 fgf ap rr tv = true ->
  exists r,
    evaluate_anesthesia_realistic pt w fio2 fgf agent ap p tv rr g = Returns r /\
    count (Msg.agent_too_high agent) (alarms r) = once (ap >? ceiling agent) /\
    count (Msg.agent_high agent) (warnings r)
      = once (negb (ap >? ceiling agent) && (ap >? warn_high agent)) /\
    ((ap >? ceiling agent) = true ->
     In (Msg.agent_too_high agent) (alarms r) /\ ~ In (Msg.agent_high agent) (warnings r)) /\
    ((ap >? ceiling agent) = false -> (ap >? warn_high agent) = true ->
     In (Msg.agent_high agent) (warnings r) /\ ~ In (Msg.agent_too_high agent) (alarms r)) /\
    (agent = "Desflurane"%string -> ap = 11 ->
     In "Desflurane concentration too high (>10.0%)."%string (alarms r)) /\
    ceiling "Sevoflurane" = 4.0 /\ warn_high "Sevoflurane" = 3.0 /\
    ceiling "Isoflurane" = 3.0 /\ warn_high "Isoflurane" = 2.5 /\
    ceiling "Desflurane" = 10.0 /\ warn_high "Desflurane" = 8.0 /\
    (agent <> "Sevoflurane"%string -> agent <> "Isoflurane"%string ->
     agent <> "Desflurane"%string -> ceiling agent = 5.0 /\ warn_high agent = 3.0).
Proof.
  intros V. rewrite (evaluate_valid _ _ _ _ _ _ _ _ _ _ V).
  eexists; split; [reflexivity|]. cbn [status alarms warnings].
  destruct (ranges pt) as [[[lo hi] al] wl] eqn:R.
  assert (A : count (Msg.agent_too_high agent)
                (Log.alarms (clinical_log pt w fio2 fgf agent ap p tv rr g))
              = once (ap >? ceiling agent))
    by (by_rule R; rewrite agent_alarm_count; lia).
  assert (W : count (Msg.agent_high agent)
                (Log.warnings (clinical_log pt w fio2 fgf agent ap p tv rr g))
              = once (negb (ap >? ceiling agent) && (ap >? warn_high agent)))
    by (by_rule R; rewrite agent_warning_count; lia).
  split; [exact A|]. split; [exact W|].
  split; [|split; [|split]].
  - intros C. rewrite !count_In, A, W, C. simpl. lia.
  - intros C H. rewrite !count_In, A, W, C, H. simpl. lia.
  - intros -> ->.
    change "Desflurane concentration too high (>10.0%)."%string
      with (Msg.agent_too_high "Desflurane").
    rewrite count_In, A. vm_compute. lia.
  - repeat (split; [reflexivity|]). apply unrecognized_agent.
Qed.

Lemma agent_rule_witness :
  valid_inputs 70 50 4 11 12 500 = true /\
  exists r,
    evaluate_anesthesia_realistic "adult" 70 50 4 "Desflurane" 11 18 500 12 true
    = Returns r /\
    In "Desflurane concentration too high (>10.0%)."%string (alarms r) /\
    ~ In (Msg.agent_high "Desflurane") (warnings r).
Proof.
  split; [reflexivity|].
  destruct (agent_rule "adult" 70 50 4 "Desflurane" 11 18 500 12 true eq_refl)
    as (r & E & _ & _ & C & _ & D & _).
  exists r. split; [exact E|]. split; [exact (D eq_refl eq_refl)|].
  exact (proj2 (C eq_refl)).
Defined.

(** A weight that passes the gate and is not above zero is NaN. *)
Lemma fallback_only_for_nan w fio2 fgf ap rr tv :
  valid_inputs w fio2 fgf ap rr tv = true -> (w >? 0) = false -> w = nan.
Proof.
  unfold valid_inputs. intros V G.
  destruct (w <=? 0) eqn:L; [discriminate|].
  destruct (FloatOrder.unordered_nan _ _ L G) as [H|H]; [exact H|].
  apply (f_equal (fun x => x =? x)) in H. discriminate.
Qed.

(** C10 (amended): whenever execution reaches the ventilation computation
    with a weight that is not NaN, the weight is above zero and differs
    from zero, so the division by the weight runs, does not raise, and the
    fallback value is not used. *)
Theorem weight_division_guarded pt w fio2 fgf agent ap p tv rr g :
  valid_inputs w fio2 fgf ap rr tv = true ->
  w <> nan ->
  (w >? 0) = true /\ (w =? 0) = false /\
  vt_per_kg tv w = Returns (Py.Float (tv / w)) /\
  exists r,
    evaluate_anesthesia_realistic pt w fio2 fgf agent ap p tv rr g = Returns r /\
    dict_get (computed r) "VT_mLkg" = Some (Num (Py.Float (Py.round_float (tv / w) 2))).
Proof.
  intros V N.
  assert (G : (w >? 0) = true).
  { destruct (w >? 0) eqn:G; [reflexivity|].
    destruct N. exact (fallback_only_for_nan _ _ _ _ _ _ V G). }
  split; [exact G|]. split; [exact (FloatOrder.ltb_not_eqb _ _ G)|].
  split; [rewrite vt_per_kg_returns; unfold vt_value; now rewrite G|].
  rewrite (evaluate_valid _ _ _ _ _ _ _ _ _ _ V).
  eexists; split; [reflexivity|]. cbn [computed]. unfold computed_of, vt_value.
  rewrite G. destruct (ranges pt) as [[[lo hi] al] wl]. reflexivity.
Qed.

Lemma weight_division_guarded_witness :
  valid_inputs 70 50 4 2 12 500 = true /\
  70 <> nan /\
  (70 >? 0) = true /\ (70 =? 0) = false /\
  vt_per_kg 500 70 = Returns (Py.Float (500 / 70)) /\
  exists r,
    evaluate_anesthesia_realistic "adult" 70 50 4 "Sevoflurane" 2 18 500 12 true
    = Returns r /\
    dict_get (computed r) "VT_mLkg" = Some (Num (Py.Float (Py.round_float (500 / 70) 2))).
Proof.
  assert (N : 70 <> nan)
    by (intros H; apply (f_equal (fun x => x =? x)) in H; discriminate).
  split; [reflexivity|]. split; [exact N|].
  exact (weight_division_guarded "adult" 70 50 4 "Sevoflurane" 2 18 500 12 true eq_refl N).
Defined.

(** C10 as stated fails for a NaN weight: the gate lets it through, since
    [nan <= 0] is false, the guard [nan > 0] is false too, and the fallback
    branch yields the int 0. *)
Lemma fallback_reached_by_nan :
  valid_inputs nan 50 4 2 12 500 = true /\
  (nan >? 0) = false /\
  vt_per_kg 500 nan = Returns (Py.Int 0) /\
  evaluate_anesthesia_realistic "adult" nan 50 4 "Sevoflurane" 2 18 500 12 true =
  Returns (mkResult "ALARM" ["VT too low: 0.0 mL/kg (<4)."%string] []
             [ ("MV_Lmin", Num (Py.Float 6.0));
               ("VT_mLkg", Num (Py.Int 0));
               ("VT_target_mLkg", Str "6.0-8.0") ]%string).
Proof.
  repeat split; vm_compute; reflexivity.
Qed.

End Claims.

(** * Further properties of the evaluator *)

(** ** More of the order on floats *)

Module FloatFacts.

Local Open Scope float_scope.

Lemma eqb_ltb_trans (a b c : float) :
  (a =? b) = true -> (b <? c) = true -> (a <? c) = true.
Proof.
  rewrite eqb_spec, !ltb_spec. unfold SFeqb, SFltb.
  destruct (SFcompare (Prim2SF a) (Prim2SF b)) as [c1|] eqn:H1; try discriminate.
  destruct (SFcompare (Prim2SF b) (Prim2SF c)) as [c2|] eqn:H2; try discriminate.
  intros L1 L2.
  rewrite (FloatOrder.SFcompare_trans _ _ _ _ _ H1 H2) by (destruct c1, c2; congruence).
  destruct c1, c2; congruence.
Qed.

Lemma ltb_leb (a b : float) : (a <? b) = true -> (a <=? b) = true.
Proof.
  rewrite leb_spec, ltb_spec. unfold SFleb, SFltb.
  destruct (SFcompare (Prim2SF a) (Prim2SF b)) as [[]|]; congruence.
Qed.

Lemma nan_not_ltb (b : float) : (nan <? b) = false.
Proof.
  rewrite ltb_spec. reflexivity.
Qed.

Lemma not_leb_nan (a : float) : (a <=? nan) = false.
Proof.
  rewrite leb_spec. unfold SFleb. change (Prim2SF nan) with S754_nan.
  destruct (Prim2SF a); reflexivity.
Qed.

(** Below a bound, hence below any larger bound. *)
Lemma below_larger (x lo hi : float) :
  (lo <=? hi) = true -> (x <? lo) = true -> (x <? hi) = true.
Proof.
  intros B L. exact (FloatOrder.ltb_leb_trans _ _ _ L B).
Qed.

(** Above a bound, hence above any smaller bound. *)
Lemma above_smaller (x lo hi : float) :
  (lo <=? hi) = true -> (x >? hi) = true -> (x >? lo) = true.
Proof.
  intros B L. exact (FloatOrder.leb_ltb_trans _ _ _ B L).
Qed.

(** Nothing is both below a bound and above a bound at least as large. *)
Lemma below_not_above (x lo hi : float) :
  (lo <=? hi) = true -> (x <? lo) = true -> (x >? hi) = false.
Proof.
  intros B L. destruct (x >? hi) eqn:E; [|reflexivity].
  pose proof (FloatOrder.ltb_trans _ _ _ E L) as C.
  now rewrite (FloatOrder.leb_not_gtb _ _ B) in C.
Qed.

(** NaN divided by anything is NaN. *)
Lemma nan_div (x : float) : nan / x = nan.
Proof.
  apply Prim2SF_inj. rewrite div_spec. change (Prim2SF nan) with S754_nan.
  reflexivity.
Qed.

End FloatFacts.

(** Counting a rule's own messages in what it appends. *)
Ltac own_count :=
  unfold Msg.agent_too_high, Msg.agent_high, Msg.low_mv, Msg.borderline_mv,
    Msg.vt_too_low, Msg.vt_below, Msg.vt_too_high, Msg.vt_above;
  cbn [Log.alarm Log.warn Log.alarms Log.warnings Log.empty List.app once negb andb];
  repeat first [ rewrite count_same | rewrite count_other by differ ];
  reflexivity.

Section Ranges.

Local Open Scope float_scope.

Lemma ranges_eq pt :
  ranges pt = (vt_rec_low pt, vt_rec_high pt, mv_alarm_low pt, mv_warn_low pt).
Proof.
  unfold ranges, vt_rec_low, vt_rec_high, mv_alarm_low, mv_warn_low.
  destruct (String.eqb pt "adult"); reflexivity.
Qed.

Lemma alarm_low_below_warn_low pt : (mv_alarm_low pt <=? mv_warn_low pt) = true.
Proof.
  unfold mv_alarm_low, mv_warn_low. destruct (String.eqb pt "adult"); reflexivity.
Qed.

Lemma four_below_rec_low pt : (4 <=? vt_rec_low pt) = true.
Proof.
  unfold vt_rec_low. destruct (String.eqb pt "adult"); reflexivity.
Qed.

Lemma rec_low_below_eight pt : (vt_rec_low pt <=? 8) = true.
Proof.
  unfold vt_rec_low. destruct (String.eqb pt "adult"); reflexivity.
Qed.

End Ranges.

(** ** The tidal volume rule alone *)

Section TidalVolume.

Local Open Scope float_scope.

Lemma vt_too_low_count vt lo hi :
  count (Msg.vt_too_low vt) (Log.alarms (vt_checks vt lo hi Log.empty)) = once (Py.ltb vt 4).
Proof.
  unfold vt_checks.
  destruct (Py.ltb vt 4), (Py.ltb vt lo), (Py.gtb vt 10), (Py.gtb vt hi); own_count.
Qed.

Lemma vt_too_high_count vt lo hi :
  count (Msg.vt_too_high vt) (Log.alarms (vt_checks vt lo hi Log.empty)) = once (Py.gtb vt 10).
Proof.
  unfold vt_checks.
  destruct (Py.ltb vt 4), (Py.ltb vt lo), (Py.gtb vt 10), (Py.gtb vt hi); own_count.
Qed.

Lemma vt_below_count vt lo hi :
  count (Msg.vt_below vt lo hi) (Log.warnings (vt_checks vt lo hi Log.empty))
  = once (negb (Py.ltb vt 4) && Py.ltb vt lo).
Proof.
  unfold vt_checks.
  destruct (Py.ltb vt 4), (Py.ltb vt lo), (Py.gtb vt 10), (Py.gtb vt hi); own_count.
Qed.

Lemma vt_above_count vt lo hi :
  count (Msg.vt_above vt lo hi) (Log.warnings (vt_checks vt lo hi Log.empty))
  = once (negb (Py.gtb vt 10) && Py.gtb vt hi).
Proof.
  unfold vt_checks.
  destruct (Py.ltb vt 4), (Py.ltb vt lo), (Py.gtb vt 10), (Py.gtb vt hi); own_count.
Qed.

(** The tidal volume per kilogram is below the recommended range or above
    it, never both; the int 0 of the fallback branch is below. *)
Lemma vt_low_not_high tv w pt :
  Py.ltb (vt_value tv w) (vt_rec_low pt) = true ->
  Py.gtb (vt_value tv w) (vt_rec_high pt) = false.
Proof.
  unfold vt_value, vt_rec_high. destruct (w >? 0); [|reflexivity].
  cbn [Py.ltb Py.gtb]. apply FloatFacts.below_not_above, rec_low_below_eight.
Qed.

Lemma vt_alarm_low_is_low tv w pt :
  Py.ltb (vt_value tv w) 4 = true -> Py.ltb (vt_value tv w) (vt_rec_low pt) = true.
Proof.
  unfold vt_value. destruct (w >? 0).
  - cbn [Py.ltb]. apply FloatFacts.below_larger, four_below_rec_low.
  - intros _. unfold vt_rec_low. destruct (String.eqb pt "adult"); reflexivity.
Qed.

Lemma vt_alarm_high_is_high tv w pt :
  Py.gtb (vt_value tv w) 10 = true -> Py.gtb (vt_value tv w) (vt_rec_high pt) = true.
Proof.
  unfold vt_value, vt_rec_high. destruct (w >? 0); [|discriminate].
  cbn [Py.gtb]. now apply FloatFacts.above_smaller.
Qed.

End TidalVolume.

Section MoreClaims.

Local Open Scope float_scope.

(** X1: on a valid input the tidal-volume rule adds the too-low alarm
    exactly when VT per kg is below 4, the below-recommended warning
    exactly when it is not below 4 but below the low end of the target
    range, the too-high alarm exactly when it is above 10, the
    above-recommended warning exactly when it is not above 10 but above
    the high end; the two chains never both fire, so the rule adds at
    most one of its four messages. *)
Theorem vt_rule pt w fio2 fgf agent ap p tv rr g :
  valid_inputs w fio2 fgf ap rr tv = true ->
  exists r,
    evaluate_anesthesia_realistic pt w fio2 fgf agent ap p tv rr g = Returns r /\
    count (Msg.vt_too_low (vt_value tv w)) (alarms r) = once (Py.ltb (vt_value tv w) 4) /\
    count (Msg.vt_below (vt_value tv w) (vt_rec_low pt) (vt_rec_high pt)) (warnings r)
      = once (negb (Py.ltb (vt_value tv w) 4) && Py.ltb (vt_value tv w) (vt_rec_low pt)) /\
    count (Msg.vt_too_high (vt_value tv w)) (alarms r) = once (Py.gtb (vt_value tv w) 10) /\
    count (Msg.vt_above (vt_value tv w) (vt_rec_low pt) (vt_rec_high pt)) (warnings r)
      = once (negb (Py.gtb (vt_value tv w) 10) && Py.gtb (vt_value tv w) (vt_rec_high pt)) /\
    (count (Msg.vt_too_low (vt_value tv w)) (alarms r)
     + count (Msg.vt_below (vt_value tv w) (vt_rec_low pt) (vt_rec_high pt)) (warnings r)
     + count (Msg.vt_too_high (vt_value tv w)) (alarms r)
     + count (Msg.vt_above (vt_value tv w) (vt_rec_low pt) (vt_rec_high pt)) (warnings r)
     <= 1)%nat.
Proof.
  intros V. rewrite (evaluate_valid _ _ _ _ _ _ _ _ _ _ V).
  eexists; split; [reflexivity|]. cbn [status alarms warnings].
  pose proof (ranges_eq pt) as R.
  assert (A1 : count (Msg.vt_too_low (vt_value tv w))
                 (Log.alarms (clinical_log pt w fio2 fgf agent ap p tv rr g))
               = once (Py.ltb (vt_value tv w) 4))
    by (by_rule R; rewrite vt_too_low_count; lia).
  assert (A2 : count (Msg.vt_below (vt_value tv w) (vt_rec_low pt) (vt_rec_high pt))
                 (Log.warnings (clinical_log pt w fio2 fgf agent ap p tv rr g))
               = once (negb (Py.ltb (vt_value tv w) 4)
                       && Py.ltb (vt_value tv w) (vt_rec_low pt)))
    by (by_rule R; rewrite vt_below_count; lia).
  assert (A3 : count (Msg.vt_too_high (vt_value tv w))
                 (Log.alarms (clinical_log pt w fio2 fgf agent ap p tv rr g))
               = once (Py.gtb (vt_value tv w) 10))
    by (by_rule R; rewrite vt_too_high_count; lia).
  assert (A4 : count (Msg.vt_above (vt_value tv w) (vt_rec_low pt) (vt_rec_high pt))
                 (Log.warnings (clinical_log pt w fio2 fgf agent ap p tv rr g))
               = once (negb (Py.gtb (vt_value tv w) 10)
                       && Py.gtb (vt_value tv w) (vt_rec_high pt)))
    by (by_rule R; rewrite vt_above_count; lia).
  rewrite A1, A2, A3, A4. repeat (split; [reflexivity|]).
  pose proof (vt_low_not_high tv w pt) as E1.
  pose proof (vt_alarm_low_is_low tv w pt) as E2.
  pose proof (vt_alarm_high_is_high tv w pt) as E3.
  destruct (Py.ltb (vt_value tv w) 4), (Py.ltb (vt_value tv w) (vt_rec_low pt)),
    (Py.gtb (vt_value tv w) 10), (Py.gtb (vt_value tv w) (vt_rec_high pt));
    simpl; try lia;
    try (specialize (E1 eq_refl)); try (specialize (E2 eq_refl));
    try (specialize (E3 eq_refl)); discriminate.
Qed.

Lemma vt_rule_witness :
  valid_inputs 70 50 4 2 12 200 = true /\
  exists r,
    evaluate_anesthesia_realistic "adult" 70 50 4 "Sevoflurane" 2 18 200 12 true
    = Returns r /\
    In "VT too low: 2.9 mL/kg (<4)."%string (alarms r) /\
    count (Msg.vt_too_high (vt_value 200 70)) (alarms r) = 0%nat.
Proof.
  split; [reflexivity|].
  destruct (vt_rule "adult" 70 50 4 "Sevoflurane" 2 18 200 12 true eq_refl)
    as (r & E & L & _ & H & _).
  exists r. split; [exact E|]. split; [|exact H].
  apply count_In.
  change "VT too low: 2.9 mL/kg (<4)."%string with (Msg.vt_too_low (vt_value 200 70)).
  rewrite L. vm_compute. lia.
Defined.

End MoreClaims.

(** ** Minute ventilation, pressure and disconnection alone *)

Section VentilationCounts.

Local Open Scope float_scope.

Lemma low_mv_count mv al wl :
  count (Msg.low_mv mv) (Log.alarms (minute_ventilation mv al wl Log.empty))
  = once (mv <? al).
Proof.
  unfold minute_ventilation. destruct (mv <? al), (mv <? wl); own_count.
Qed.

Lemma borderline_mv_count mv al wl :
  count (Msg.borderline_mv mv) (Log.warnings (minute_ventilation mv al wl Log.empty))
  = once (negb (mv <? al) && (mv <? wl)).
Proof.
  unfold minute_ventilation. destruct (mv <? al), (mv <? wl); own_count.
Qed.

Lemma disconnection_count p mv wl :
  count Msg.disconnection (Log.alarms (disconnection p mv wl Log.empty))
  = once ((p <? 5) && (mv <? wl)).
Proof.
  unfold disconnection. destruct (p <? 5), (mv <? wl); reflexivity.
Qed.

Lemma high_pressure_count p :
  count Msg.high_pressure (Log.alarms (airway_pressure p Log.empty)) = once (p >? 40).
Proof.
  unfold airway_pressure. destruct (p >? 40), (p >? 30); reflexivity.
Qed.

Lemma elevated_pressure_count p :
  count Msg.elevated_pressure (Log.warnings (airway_pressure p Log.empty))
  = once (negb (p >? 40) && (p >? 30)).
Proof.
  unfold airway_pressure. destruct (p >? 40), (p >? 30); reflexivity.
Qed.

End VentilationCounts.

(** ** The fresh gas flow rule, message by message *)

Section FreshGasFlowCounts.

Local Open Scope float_scope.

Lemma fgf_zero_count fgf ap :
  count Msg.fgf_zero (Log.alarms (fresh_gas_flow fgf ap Log.empty))
  = once ((fgf =? 0) && (ap >? 0)).
Proof.
  unfold fresh_gas_flow.
  destruct (fgf =? 0), (ap >? 0), (fgf <=? 0.3), (fgf <? 0.5), (fgf >? 10); reflexivity.
Qed.

Lemma fgf_too_low_count fgf ap :
  count Msg.fgf_too_low (Log.alarms (fresh_gas_flow fgf ap Log.empty))
  = once (negb (fgf =? 0) && (fgf <=? 0.3) && (ap >? 0)).
Proof.
  unfold fresh_gas_flow.
  destruct (fgf =? 0), (ap >? 0), (fgf <=? 0.3), (fgf <? 0.5), (fgf >? 10); reflexivity.
Qed.

Lemma slow_wash_in_count fgf ap :
  count Msg.slow_wash_in (Log.warnings (fresh_gas_flow fgf ap Log.empty))
  = once (fgf <? 0.5).
Proof.
  unfold fresh_gas_flow.
  destruct (fgf =? 0), (ap >? 0), (fgf <=? 0.3), (fgf <? 0.5), (fgf >? 10); reflexivity.
Qed.

Lemma high_fgf_count fgf ap :
  count Msg.high_fgf (Log.warnings (fresh_gas_flow fgf ap Log.empty))
  = once (fgf >? 10).
Proof.
  unfold fresh_gas_flow.
  destruct (fgf =? 0), (ap >? 0), (fgf <=? 0.3), (fgf <? 0.5), (fgf >? 10); reflexivity.
Qed.

End FreshGasFlowCounts.

Section MoreClaims2.

Local Open Scope float_scope.

(** X2: on a valid input the low-minute-ventilation alarm is present
    exactly when MV is below the alarm-low threshold of the patient type
    (3.0 adult, 0.8 otherwise), the borderline warning exactly when MV is
    not below it but below warn-low, and the disconnection alarm exactly
    when pressure is below 5 and MV is below warn-low.  Alarm-low is below
    warn-low, so a low-MV alarm at a pressure below 5 always comes with the
    disconnection alarm. *)
Theorem mv_rule pt w fio2 fgf agent ap p tv rr g :
  valid_inputs w fio2 fgf ap rr tv = true ->
  exists r,
    evaluate_anesthesia_realistic pt w fio2 fgf agent ap p tv rr g = Returns r /\
    count (Msg.low_mv (minute_volume tv rr)) (alarms r)
      = once (minute_volume tv rr <? mv_alarm_low pt) /\
    count (Msg.borderline_mv (minute_volume tv rr)) (warnings r)
      = once (negb (minute_volume tv rr <? mv_alarm_low pt)
              && (minute_volume tv rr <? mv_warn_low pt)) /\
    count Msg.disconnection (alarms r)
      = once ((p <? 5) && (minute_volume tv rr <? mv_warn_low pt)) /\
    (In (Msg.low_mv (minute_volume tv rr)) (alarms r) -> (p <? 5) = true ->
     In Msg.disconnection (alarms r)).
Proof.
  intros V. rewrite (evaluate_valid _ _ _ _ _ _ _ _ _ _ V).
  eexists; split; [reflexivity|]. cbn [status alarms warnings].
  pose proof (ranges_eq pt) as R.
  assert (A : count (Msg.low_mv (minute_volume tv rr))
                (Log.alarms (clinical_log pt w fio2 fgf agent ap p tv rr g))
              = once (minute_volume tv rr <? mv_alarm_low pt))
    by (by_rule R; rewrite low_mv_count; lia).
  assert (D : count Msg.disconnection
                (Log.alarms (clinical_log pt w fio2 fgf agent ap p tv rr g))
              = once ((p <? 5) && (minute_volume tv rr <? mv_warn_low pt)))
    by (by_rule R; rewrite disconnection_count; lia).
  split; [exact A|].
  split; [by_rule R; rewrite borderline_mv_count; lia|].
  split; [exact D|].
  rewrite !count_In, A, D. intros L P. rewrite P.
  destruct (minute_volume tv rr <? mv_alarm_low pt) eqn:E; [|simpl in L; lia].
  rewrite (FloatFacts.below_larger _ _ _ (alarm_low_below_warn_low pt) E). simpl. lia.
Qed.

Lemma mv_rule_witness :
  valid_inputs 20 50 4 2 10 60 = true /\
  exists r,
    evaluate_anesthesia_realistic "pediatric" 20 50 4 "Sevoflurane" 2 3 60 10 true
    = Returns r /\
    In "Low minute ventilation: MV 0.6 L/min (too low)."%string (alarms r) /\
    In Msg.disconnection (alarms r).
Proof.
  split; [reflexivity|].
  destruct (mv_rule "pediatric" 20 50 4 "Sevoflurane" 2 3 60 10 true eq_refl)
    as (r & E & L & _ & _ & K).
  exists r. split; [exact E|].
  assert (I : In "Low minute ventilation: MV 0.6 L/min (too low)."%string (alarms r)).
  { apply count_In.
    change "Low minute ventilation: MV 0.6 L/min (too low)."%string
      with (Msg.low_mv (minute_volume 60 10)).
    rewrite L. vm_compute. lia. }
  split; [exact I|]. exact (K I eq_refl).
Defined.

(** X3: on a valid input the barotrauma alarm is present exactly when
    pressure is above 40 and the elevated-pressure warning exactly when it
    is not above 40 but above 30; the barotrauma alarm and the
    disconnection alarm never appear together. *)
Theorem pressure_rule pt w fio2 fgf agent ap p tv rr g :
  valid_inputs w fio2 fgf ap rr tv = true ->
  exists r,
    evaluate_anesthesia_realistic pt w fio2 fgf agent ap p tv rr g = Returns r /\
    count Msg.high_pressure (alarms r) = once (p >? 40) /\
    count Msg.elevated_pressure (warnings r) = once (negb (p >? 40) && (p >? 30)) /\
    (In Msg.high_pressure (alarms r) -> ~ In Msg.disconnection (alarms r)).
Proof.
  intros V. rewrite (evaluate_valid _ _ _ _ _ _ _ _ _ _ V).
  eexists; split; [reflexivity|]. cbn [status alarms warnings].
  pose proof (ranges_eq pt) as R.
  assert (A : count Msg.high_pressure
                (Log.alarms (clinical_log pt w fio2 fgf agent ap p tv rr g))
              = once (p >? 40))
    by (by_rule R; rewrite high_pressure_count; lia).
  assert (D : count Msg.disconnection
                (Log.alarms (clinical_log pt w fio2 fgf agent ap p tv rr g))
              = once ((p <? 5) && (minute_volume tv rr <? mv_warn_low pt)))
    by (by_rule R; rewrite disconnection_count; lia).
  split; [exact A|].
  split; [by_rule R; rewrite elevated_pressure_count; lia|].
  rewrite !count_In, A, D. intros H.
  destruct (p >? 40) eqn:E; [|simpl in H; lia].
  destruct (p <? 5) eqn:F; [|simpl; lia].
  rewrite (FloatFacts.below_not_above p 5 40 eq_refl F) in E. discriminate.
Qed.

Lemma pressure_rule_witness :
  valid_inputs 70 50 4 2 12 500 = true /\
  exists r,
    evaluate_anesthesia_realistic "adult" 70 50 4 "Sevoflurane" 2 45 500 12 true
    = Returns r /\
    In Msg.high_pressure (alarms r) /\ ~ In Msg.disconnection (alarms r).
Proof.
  split; [reflexivity|].
  destruct (pressure_rule "adult" 70 50 4 "Sevoflurane" 2 45 500 12 true eq_refl)
    as (r & E & H & _ & K).
  exists r. split; [exact E|].
  assert (I : In Msg.high_pressure (alarms r))
    by (apply count_In; rewrite H; vm_compute; lia).
  split; [exact I|exact (K I)].
Defined.

(** X4: on a valid input the fresh-gas-flow rule adds the no-carrier-flow
    alarm exactly when the flow equals zero (of either sign) with agent
    above 0, the too-low alarm exactly when the flow is not zero, at most
    0.3, with agent above 0, the slow wash-in warning exactly when the
    flow is below 0.5 and the high-flow warning exactly when it is above
    10.  It never adds both alarms nor both warnings; a zero flow with
    agent set gives the no-carrier-flow alarm together with the slow
    wash-in warning; with agent not above 0 there is no flow alarm. *)
Theorem fgf_rule pt w fio2 fgf agent ap p tv rr g :
  valid_inputs w fio2 fgf ap rr tv = true ->
  exists r,
    evaluate_anesthesia_realistic pt w fio2 fgf agent ap p tv rr g = Returns r /\
    count Msg.fgf_zero (alarms r) = once ((fgf =? 0) && (ap >? 0)) /\
    count Msg.fgf_too_low (alarms r)
      = once (negb (fgf =? 0) && (fgf <=? 0.3) && (ap >? 0)) /\
    count Msg.slow_wash_in (warnings r) = once (fgf <? 0.5) /\
    count Msg.high_fgf (warnings r) = once (fgf >? 10) /\
    (count Msg.fgf_zero (alarms r) + count Msg.fgf_too_low (alarms r) <= 1)%nat /\
    (count Msg.slow_wash_in (warnings r) + count Msg.high_fgf (warnings r) <= 1)%nat /\
    (In Msg.fgf_zero (alarms r) -> In Msg.slow_wash_in (warnings r)) /\
    ((ap >? 0) = false ->
     ~ In Msg.fgf_zero (alarms r) /\ ~ In Msg.fgf_too_low (alarms r)).
Proof.
  intros V. rewrite (evaluate_valid _ _ _ _ _ _ _ _ _ _ V).
  eexists; split; [reflexivity|]. cbn [status alarms warnings].
  pose proof (ranges_eq pt) as R.
  assert (Z : count Msg.fgf_zero
                (Log.alarms (clinical_log pt w fio2 fgf agent ap p tv rr g))
              = once ((fgf =? 0) && (ap >? 0)))
    by (by_rule R; rewrite fgf_zero_count; lia).
  assert (L : count Msg.fgf_too_low
                (Log.alarms (clinical_log pt w fio2 fgf agent ap p tv rr g))
              = once (negb (fgf =? 0) && (fgf <=? 0.3) && (ap >? 0)))
    by (by_rule R; rewrite fgf_too_low_count; lia).
  assert (S : count Msg.slow_wash_in
                (Log.warnings (clinical_log pt w fio2 fgf agent ap p tv rr g))
              = once (fgf <? 0.5))
    by (by_rule R; rewrite slow_wash_in_count; lia).
  assert (H : count Msg.high_fgf
                (Log.warnings (clinical_log pt w fio2 fgf agent ap p tv rr g))
              = once (fgf >? 10))
    by (by_rule R; rewrite high_fgf_count; lia).
  rewrite !count_In, Z, L, S, H. repeat (split; [reflexivity|]).
  split; [destruct (fgf =? 0), (fgf <=? 0.3), (ap >? 0); simpl; lia|].
  split.
  { destruct (fgf <? 0.5) eqn:E; [|destruct (fgf >? 10); simpl; lia].
    rewrite (FloatFacts.below_not_above fgf 0.5 10 eq_refl E). simpl. lia. }
  split.
  { destruct (fgf =? 0) eqn:E; [|simpl; lia]. intros _.
    rewrite (FloatFacts.eqb_ltb_trans fgf 0 0.5 E eq_refl). simpl. lia. }
  intros ->. destruct (fgf =? 0), (fgf <=? 0.3); simpl; lia.
Qed.

Lemma fgf_rule_witness :
  valid_inputs 70 50 (-0) 2 12 500 = true /\
  exists r,
    evaluate_anesthesia_realistic "adult" 70 50 (-0) "Sevoflurane" 2 18 500 12 true
    = Returns r /\
    In Msg.fgf_zero (alarms r) /\ In Msg.slow_wash_in (warnings r) /\
    count Msg.fgf_too_low (alarms r) = 0%nat.
Proof.
  split; [reflexivity|].
  destruct (fgf_rule "adult" 70 50 (-0) "Sevoflurane" 2 18 500 12 true eq_refl)
    as (r & E & Z & L & _ & _ & _ & _ & K & _).
  exists r. split; [exact E|].
  assert (I : In Msg.fgf_zero (alarms r))
    by (apply count_In; rewrite Z; vm_compute; lia).
  split; [exact I|]. split; [exact (K I)|]. rewrite L. reflexivity.
Defined.

End MoreClaims2.

(** ** Order of the messages *)

Section Subsequences.

Context {A : Type}.

Lemma subseq_app (l1 l1' l2 l2' : list A) :
  subseq l1 l1' -> subseq l2 l2' -> subseq (l1 ++ l2) (l1' ++ l2').
Proof.
  intros H1 H2. induction H1; simpl; [exact H2 | | ]; now constructor.
Qed.

Lemma subseq_In (l1 l2 : list A) (x : A) : subseq l1 l2 -> In x l1 -> In x l2.
Proof.
  intros H. induction H; simpl; [tauto | auto | intros [E|I]; auto].
Qed.

Lemma subseq_NoDup (l1 l2 : list A) : subseq l1 l2 -> NoDup l2 -> NoDup l1.
Proof.
  intros H. induction H; intros N.
  - constructor.
  - inversion N; subst. auto.
  - inversion N as [|y l N1 N2]; subst. constructor; [|auto].
    intros I. apply N1. exact (subseq_In _ _ _ H I).
Qed.

Lemma subseq_length (l1 l2 : list A) : subseq l1 l2 -> List.length l1 <= List.length l2.
Proof.
  intros H. induction H; simpl; lia.
Qed.

End Subsequences.

(** Picks the elements of the candidate list that the rule appended. *)
Ltac pick :=
  cbn [Log.alarm Log.warn Log.alarms Log.warnings Log.empty List.app];
  repeat first [ apply subseq_nil | apply subseq_keep | apply subseq_skip ].

(** Two different messages cannot be equal. *)
Ltac distinct :=
  match goal with
  | H : ?a = ?b |- False => revert H; apply String.eqb_neq; differ
  end.

Section Order.

Local Open Scope float_scope.

Lemma oxygen_alarms_order fio2 g :
  subseq (Log.alarms (oxygen_safety fio2 g Log.empty))
         [Msg.fio2_below_21; Msg.hypoxic_mixture_risk; Msg.hypoxic_guard].
Proof. unfold oxygen_safety. split_ifs; pick. Qed.

Lemma oxygen_warnings_order fio2 g :
  subseq (Log.warnings (oxygen_safety fio2 g Log.empty)) [Msg.low_fio2].
Proof. unfold oxygen_safety. split_ifs; pick. Qed.

Lemma fgf_alarms_order fgf ap :
  subseq (Log.alarms (fresh_gas_flow fgf ap Log.empty)) [Msg.fgf_zero; Msg.fgf_too_low].
Proof. unfold fresh_gas_flow. split_ifs; pick. Qed.

Lemma fgf_warnings_order fgf ap :
  subseq (Log.warnings (fresh_gas_flow fgf ap Log.empty)) [Msg.slow_wash_in; Msg.high_fgf].
Proof. unfold fresh_gas_flow. split_ifs; pick. Qed.

Lemma agent_alarms_order agent ap :
  subseq (Log.alarms (agent_limits agent ap Log.empty)) [Msg.agent_too_high agent].
Proof. unfold agent_limits. split_ifs; pick. Qed.

Lemma agent_warnings_order agent ap :
  subseq (Log.warnings (agent_limits agent ap Log.empty)) [Msg.agent_high agent].
Proof. unfold agent_limits. split_ifs; pick. Qed.

Lemma vt_alarms_order vt lo hi :
  subseq (Log.alarms (vt_checks vt lo hi Log.empty)) [Msg.vt_too_low vt; Msg.vt_too_high vt].
Proof. unfold vt_checks. split_ifs; pick. Qed.

Lemma vt_warnings_order vt lo hi :
  subseq (Log.warnings (vt_checks vt lo hi Log.empty))
         [Msg.vt_below vt lo hi; Msg.vt_above vt lo hi].
Proof. unfold vt_checks. split_ifs; pick. Qed.

Lemma rr_alarms_order rr :
  subseq (Log.alarms (rr_safety rr Log.empty)) [Msg.apnea].
Proof. unfold rr_safety. split_ifs; pick. Qed.

Lemma rr_warnings_order rr :
  subseq (Log.warnings (rr_safety rr Log.empty)) [Msg.low_rr; Msg.high_rr].
Proof. unfold rr_safety. split_ifs; pick. Qed.

Lemma mv_alarms_order mv al wl :
  subseq (Log.alarms (minute_ventilation mv al wl Log.empty)) [Msg.low_mv mv].
Proof. unfold minute_ventilation. split_ifs; pick. Qed.

Lemma mv_warnings_order mv al wl :
  subseq (Log.warnings (minute_ventilation mv al wl Log.empty)) [Msg.borderline_mv mv].
Proof. unfold minute_ventilation. split_ifs; pick. Qed.

Lemma pressure_alarms_order p :
  subseq (Log.alarms (airway_pressure p Log.empty)) [Msg.high_pressure].
Proof. unfold airway_pressure. split_ifs; pick. Qed.

Lemma pressure_warnings_order p :
  subseq (Log.warnings (airway_pressure p Log.empty)) [Msg.elevated_pressure].
Proof. unfold airway_pressure. split_ifs; pick. Qed.

Lemma disconnection_alarms_order p mv wl :
  subseq (Log.alarms (disconnection p mv wl Log.empty)) [Msg.disconnection].
Proof. unfold disconnection. split_ifs; pick. Qed.

Lemma disconnection_warnings_order p mv wl :
  subseq (Log.warnings (disconnection p mv wl Log.empty)) [].
Proof. unfold disconnection. split_ifs; pick. Qed.

Lemma clinical_alarms_order pt w fio2 fgf agent ap p tv rr g :
  subseq (Log.alarms (clinical_log pt w fio2 fgf agent ap p tv rr g))
         (alarm_candidates pt w agent tv rr).
Proof.
  rewrite (clinical_log_split _ _ _ _ _ _ _ _ _ _ _ _ _ _ (ranges_eq pt)).
  cbn [Log.app Log.alarms].
  change (alarm_candidates pt w agent tv rr) with
    ([Msg.fio2_below_21; Msg.hypoxic_mixture_risk; Msg.hypoxic_guard]
     ++ [Msg.fgf_zero; Msg.fgf_too_low]
     ++ [Msg.agent_too_high agent]
     ++ [Msg.vt_too_low (vt_value tv w); Msg.vt_too_high (vt_value tv w)]
     ++ [Msg.apnea]
     ++ [Msg.low_mv (minute_volume tv rr)]
     ++ [Msg.high_pressure]
     ++ [Msg.disconnection])%list.
  repeat apply subseq_app;
    auto using oxygen_alarms_order, fgf_alarms_order, agent_alarms_order,
      vt_alarms_order, rr_alarms_order, mv_alarms_order, pressure_alarms_order,
      disconnection_alarms_order.
Qed.

Lemma clinical_warnings_order pt w fio2 fgf agent ap p tv rr g :
  subseq (Log.warnings (clinical_log pt w fio2 fgf agent ap p tv rr g))
         (warning_candidates pt w agent tv rr).
Proof.
  rewrite (clinical_log_split _ _ _ _ _ _ _ _ _ _ _ _ _ _ (ranges_eq pt)).
  cbn [Log.app Log.warnings].
  change (warning_candidates pt w agent tv rr) with
    ([Msg.low_fio2]
     ++ [Msg.slow_wash_in; Msg.high_fgf]
     ++ [Msg.agent_high agent]
     ++ [Msg.vt_below (vt_value tv w) (vt_rec_low pt) (vt_rec_high pt);
         Msg.vt_above (vt_value tv w) (vt_rec_low pt) (vt_rec_high pt)]
     ++ [Msg.low_rr; Msg.high_rr]
     ++ [Msg.borderline_mv (minute_volume tv rr)]
     ++ [Msg.elevated_pressure]
     ++ [])%list.
  repeat apply subseq_app;
    auto using oxygen_warnings_order, fgf_warnings_order, agent_warnings_order,
      vt_warnings_order, rr_warnings_order, mv_warnings_order, pressure_warnings_order,
      disconnection_warnings_order.
Qed.

Lemma violations_order w fio2 fgf ap rr tv :
  subseq (violations w fio2 fgf ap rr tv) validity_messages.
Proof.
  unfold violations, validity_messages. split_ifs; pick.
Qed.

Lemma alarm_candidates_NoDup pt w agent tv rr : NoDup (alarm_candidates pt w agent tv rr).
Proof.
  unfold alarm_candidates.
  repeat (constructor; [simpl; intros H; repeat (destruct H as [H|H]; [distinct|]); exact H|]).
  constructor.
Qed.

Lemma warning_candidates_NoDup pt w agent tv rr : NoDup (warning_candidates pt w agent tv rr).
Proof.
  unfold warning_candidates.
  repeat (constructor; [simpl; intros H; repeat (destruct H as [H|H]; [distinct|]); exact H|]).
  constructor.
Qed.

Lemma validity_messages_NoDup : NoDup validity_messages.
Proof.
  unfold validity_messages.
  repeat (constructor; [simpl; intros H; repeat (destruct H as [H|H]; [distinct|]); exact H|]).
  constructor.
Qed.

End Order.

Section MoreClaims3.

Local Open Scope float_scope.

(** X5: the messages always come in the order of the rules.  On a valid
    input the alarms are a subsequence of the twelve clinical alarms in
    rule order (oxygen, fresh gas flow, agent, tidal volume, respiratory
    rate, minute ventilation, pressure, disconnection) and the warnings a
    subsequence of the ten clinical warnings in rule order; on an invalid
    input the alarms are a subsequence of the six validity messages. *)
Theorem messages_in_rule_order pt w fio2 fgf agent ap p tv rr g :
  exists r,
    evaluate_anesthesia_realistic pt w fio2 fgf agent ap p tv rr g = Returns r /\
    subseq (alarms r)
           (if valid_inputs w fio2 fgf ap rr tv then alarm_candidates pt w agent tv rr
            else validity_messages) /\
    subseq (warnings r)
           (if valid_inputs w fio2 fgf ap rr tv then warning_candidates pt w agent tv rr
            else []).
Proof.
  destruct (valid_inputs w fio2 fgf ap rr tv) eqn:V.
  - rewrite (evaluate_valid _ _ _ _ _ _ _ _ _ _ V).
    eexists; split; [reflexivity|]. cbn [alarms warnings].
    split; [apply clinical_alarms_order | apply clinical_warnings_order].
  - rewrite (evaluate_invalid _ _ _ _ _ _ _ _ _ _ V).
    eexists; split; [reflexivity|]. cbn [alarms warnings].
    split; [apply violations_order | constructor].
Qed.

(** X6: no message is listed twice, in the alarms or in the warnings, for
    any input; there are at most twelve alarms and ten warnings. *)
Theorem no_duplicate_messages pt w fio2 fgf agent ap p tv rr g :
  exists r,
    evaluate_anesthesia_realistic pt w fio2 fgf agent ap p tv rr g = Returns r /\
    NoDup (alarms r) /\ NoDup (warnings r) /\
    (List.length (alarms r) <= 12)%nat /\ (List.length (warnings r) <= 10)%nat.
Proof.
  destruct (valid_inputs w fio2 fgf ap rr tv) eqn:V.
  - rewrite (evaluate_valid _ _ _ _ _ _ _ _ _ _ V).
    eexists; split; [reflexivity|]. cbn [alarms warnings].
    pose proof (clinical_alarms_order pt w fio2 fgf agent ap p tv rr g) as SA.
    pose proof (clinical_warnings_order pt w fio2 fgf agent ap p tv rr g) as SW.
    split; [exact (subseq_NoDup _ _ SA (alarm_candidates_NoDup _ _ _ _ _))|].
    split; [exact (subseq_NoDup _ _ SW (warning_candidates_NoDup _ _ _ _ _))|].
    split; [exact (subseq_length _ _ SA) | exact (subseq_length _ _ SW)].
  - rewrite (evaluate_invalid _ _ _ _ _ _ _ _ _ _ V).
    eexists; split; [reflexivity|]. cbn [alarms warnings].
    pose proof (violations_order w fio2 fgf ap rr tv) as SA.
    split; [exact (subseq_NoDup _ _ SA validity_messages_NoDup)|].
    split; [constructor|].
    split; [|simpl; lia].
    apply subseq_length in SA. simpl in SA. lia.
Qed.

End MoreClaims3.

(** ** When a rule stays quiet *)

Section Quiet.

Local Open Scope float_scope.

(** Not below a bound, hence not below any smaller bound. *)
Lemma not_below_smaller (x lo hi : float) :
  (lo <=? hi) = true -> (x <? hi) = false -> (x <? lo) = false.
Proof.
  intros B H. destruct (x <? lo) eqn:E; [|reflexivity].
  now rewrite (FloatFacts.below_larger _ _ _ B E) in H.
Qed.

(** Not above a bound, hence not above any larger bound. *)
Lemma not_above_larger (x lo hi : float) :
  (lo <=? hi) = true -> (x >? lo) = false -> (x >? hi) = false.
Proof.
  intros B H. destruct (x >? hi) eqn:E; [|reflexivity].
  now rewrite (FloatFacts.above_smaller _ _ _ B E) in H.
Qed.

Lemma warn_high_below_ceiling agent : (warn_high agent <=? ceiling agent) = true.
Proof.
  unfold warn_high, ceiling, dict_get_default, agent_warn_high, agent_alarm_max.
  cbn [dict_get].
  destruct (String.eqb "Sevoflurane" agent); [reflexivity|].
  destruct (String.eqb "Isoflurane" agent); [reflexivity|].
  destruct (String.eqb "Desflurane" agent); reflexivity.
Qed.

Lemma oxygen_quiet fio2 g :
  oxygen_safety fio2 g Log.empty = Log.empty <-> (fio2 <? 40) = false.
Proof.
  unfold oxygen_safety. split.
  - destruct (fio2 <? 21), (fio2 <? 30), (fio2 <? 40), (g && (fio2 <? 25));
      intros H; (discriminate || reflexivity).
  - intros H.
    rewrite (not_below_smaller fio2 21 40 eq_refl H),
      (not_below_smaller fio2 30 40 eq_refl H),
      (not_below_smaller fio2 25 40 eq_refl H), H, andb_false_r.
    reflexivity.
Qed.

Lemma fresh_gas_flow_quiet fgf ap :
  fresh_gas_flow fgf ap Log.empty = Log.empty <->
  (fgf <? 0.5) = false /\ (fgf >? 10) = false.
Proof.
  unfold fresh_gas_flow. split.
  - destruct ((fgf =? 0) && (ap >? 0)), ((fgf <=? 0.3) && (ap >? 0)),
      (fgf <? 0.5), (fgf >? 10); intros H; (discriminate || (split; reflexivity)).
  - intros [H1 H2]. rewrite H1, H2.
    assert (Z : (fgf =? 0) = false).
    { destruct (fgf =? 0) eqn:E; [|reflexivity].
      now rewrite (FloatFacts.eqb_ltb_trans fgf 0 0.5 E eq_refl) in H1. }
    assert (L : (fgf <=? 0.3) = false).
    { destruct (fgf <=? 0.3) eqn:E; [|reflexivity].
      now rewrite (FloatOrder.leb_ltb_trans fgf 0.3 0.5 E eq_refl) in H1. }
    rewrite Z, L. reflexivity.
Qed.

Lemma agent_limits_quiet agent ap :
  agent_limits agent ap Log.empty = Log.empty <-> (ap >? warn_high agent) = false.
Proof.
  unfold agent_limits. fold (ceiling agent). fold (warn_high agent). split.
  - destruct (ap >? ceiling agent), (ap >? warn_high agent);
      intros H; (discriminate || reflexivity).
  - intros H.
    rewrite (not_above_larger ap _ _ (warn_high_below_ceiling agent) H), H.
    reflexivity.
Qed.

Lemma vt_checks_quiet tv w pt :
  vt_checks (vt_value tv w) (vt_rec_low pt) (vt_rec_high pt) Log.empty = Log.empty <->
  Py.ltb (vt_value tv w) (vt_rec_low pt) = false /\
  Py.gtb (vt_value tv w) (vt_rec_high pt) = false.
Proof.
  unfold vt_checks. split.
  - destruct (Py.ltb (vt_value tv w) 4), (Py.ltb (vt_value tv w) (vt_rec_low pt)),
      (Py.gtb (vt_value tv w) 10), (Py.gtb (vt_value tv w) (vt_rec_high pt));
      intros H; (discriminate || (split; reflexivity)).
  - intros [H1 H2]. rewrite H1, H2.
    pose proof (vt_alarm_low_is_low tv w pt) as E1.
    pose proof (vt_alarm_high_is_high tv w pt) as E2.
    destruct (Py.ltb (vt_value tv w) 4); [specialize (E1 eq_refl); congruence|].
    destruct (Py.gtb (vt_value tv w) 10); [specialize (E2 eq_refl); congruence|].
    reflexivity.
Qed.

Lemma rr_safety_quiet rr :
  rr_safety rr Log.empty = Log.empty <-> (rr <? 8) = false /\ (rr >? 35) = false.
Proof.
  unfold rr_safety. split.
  - destruct (rr <? 6), (rr <? 8), (rr >? 35);
      intros H; (discriminate || (split; reflexivity)).
  - intros [H1 H2]. rewrite (not_below_smaller rr 6 8 eq_refl H1), H1, H2. reflexivity.
Qed.

Lemma minute_ventilation_quiet mv pt :
  minute_ventilation mv (mv_alarm_low pt) (mv_warn_low pt) Log.empty = Log.empty <->
  (mv <? mv_warn_low pt) = false.
Proof.
  unfold minute_ventilation. split.
  - destruct (mv <? mv_alarm_low pt), (mv <? mv_warn_low pt);
      intros H; (discriminate || reflexivity).
  - intros H.
    rewrite (not_below_smaller mv _ _ (alarm_low_below_warn_low pt) H), H. reflexivity.
Qed.

Lemma airway_pressure_quiet p :
  airway_pressure p Log.empty = Log.empty <-> (p >? 30) = false.
Proof.
  unfold airway_pressure. split.
  - destruct (p >? 40), (p >? 30); intros H; (discriminate || reflexivity).
  - intros H. rewrite (not_above_larger p 30 40 eq_refl H), H. reflexivity.
Qed.

Lemma disconnection_quiet p mv wl :
  (mv <? wl) = false -> disconnection p mv wl Log.empty = Log.empty.
Proof.
  intros H. unfold disconnection. rewrite H, andb_false_r. reflexivity.
Qed.

Lemma app_empty (l1 l2 : Log.t) :
  Log.app l1 l2 = Log.empty <-> l1 = Log.empty /\ l2 = Log.empty.
Proof.
  destruct l1 as [a1 w1], l2 as [a2 w2]. unfold Log.app, Log.empty. simpl. split.
  - intros H. injection H as Ha Hw.
    apply app_eq_nil in Ha. apply app_eq_nil in Hw.
    destruct Ha as [-> ->], Hw as [-> ->]. split; reflexivity.
  - intros [H1 H2]. injection H1 as -> ->. injection H2 as -> ->. reflexivity.
Qed.

Lemma running_empty (l : Log.t) : status_of l = "RUNNING" <-> l = Log.empty.
Proof.
  destruct l as [[|a al] [|x wl]]; unfold status_of, Log.empty; simpl;
    split; intros H; (discriminate || reflexivity).
Qed.

End Quiet.

Section MoreClaims4.

Local Open Scope float_scope.

(** X7: on a valid input the status is RUNNING exactly when every reading
    is inside its quiet band: FiO₂ not below 40, fresh gas flow neither
    below 0.5 nor above 10, agent concentration not above the warn-high
    threshold, VT per kg neither below the low end of the target range
    nor above 8, respiratory rate neither below 8 nor above 35, minute
    ventilation not below warn-low, airway pressure not above 30. *)
Theorem running_exactly pt w fio2 fgf agent ap p tv rr g :
  valid_inputs w fio2 fgf ap rr tv = true ->
  exists r,
    evaluate_anesthesia_realistic pt w fio2 fgf agent ap p tv rr g = Returns r /\
    (status r = "RUNNING"%string <->
     (fio2 <? 40) = false /\
     ((fgf <? 0.5) = false /\ (fgf >? 10) = false) /\
     (ap >? warn_high agent) = false /\
     (Py.ltb (vt_value tv w) (vt_rec_low pt) = false /\
      Py.gtb (vt_value tv w) (vt_rec_high pt) = false) /\
     ((rr <? 8) = false /\ (rr >? 35) = false) /\
     (minute_volume tv rr <? mv_warn_low pt) = false /\
     (p >? 30) = false).
Proof.
  intros V. rewrite (evaluate_valid _ _ _ _ _ _ _ _ _ _ V).
  eexists; split; [reflexivity|]. cbn [status].
  rewrite running_empty, (clinical_log_split _ _ _ _ _ _ _ _ _ _ _ _ _ _ (ranges_eq pt)).
  rewrite !app_empty, oxygen_quiet, fresh_gas_flow_quiet, agent_limits_quiet,
    vt_checks_quiet, rr_safety_quiet, minute_ventilation_quiet, airway_pressure_quiet.
  split.
  - intros (H1 & H2 & H3 & H4 & H5 & H6 & H7 & _). repeat split; tauto.
  - intros (H1 & H2 & H3 & H4 & H5 & H6 & H7).
    repeat (split; [assumption|]). now apply disconnection_quiet.
Qed.

Lemma running_exactly_witness :
  valid_inputs 70 50 4 2 12 500 = true /\
  exists r,
    evaluate_anesthesia_realistic "adult" 70 50 4 "Sevoflurane" 2 18 500 12 true
    = Returns r /\ status r = "RUNNING"%string.
Proof.
  split; [reflexivity|].
  destruct (running_exactly "adult" 70 50 4 "Sevoflurane" 2 18 500 12 true eq_refl)
    as (r & E & K).
  exists r. split; [exact E|]. apply K. vm_compute. repeat split.
Defined.

(** X8: the computed dict is non-empty exactly when the input is valid;
    it then holds the keys MV_Lmin, VT_mLkg and VT_target_mLkg in this
    order, MV_Lmin is tidal volume times rate over 1000 rounded to two
    decimals, and the target string is 6.0-8.0 for the patient type spelt
    adult and 5.0-8.0 for any other string. *)
Theorem computed_when_valid pt w fio2 fgf agent ap p tv rr g :
  exists r,
    evaluate_anesthesia_realistic pt w fio2 fgf agent ap p tv rr g = Returns r /\
    truthy (computed r) = valid_inputs w fio2 fgf ap rr tv /\
    map fst (computed r) =
      (if valid_inputs w fio2 fgf ap rr tv
       then ["MV_Lmin"; "VT_mLkg"; "VT_target_mLkg"]%string else []) /\
    dict_get (computed r) "MV_Lmin" =
      (if valid_inputs w fio2 fgf ap rr tv
       then Some (Num (Py.Float (Py.round_float (tv * rr / 1000) 2))) else None) /\
    dict_get (computed r) "VT_target_mLkg" =
      (if valid_inputs w fio2 fgf ap rr tv
       then Some (Str (if String.eqb pt "adult" then "6.0-8.0" else "5.0-8.0"))
       else None).
Proof.
  destruct (valid_inputs w fio2 fgf ap rr tv) eqn:V.
  - rewrite (evaluate_valid _ _ _ _ _ _ _ _ _ _ V).
    eexists; split; [reflexivity|]. cbn [computed].
    unfold computed_of, ranges.
    destruct (String.eqb pt "adult"); repeat split; vm_compute; reflexivity.
  - rewrite (evaluate_invalid _ _ _ _ _ _ _ _ _ _ V).
    eexists; split; [reflexivity|]. repeat split.
Qed.

(** X9: NaN readings raise nothing.  With a weight above zero and NaN in
    every other numeric field, validation passes, no rule fires and the
    status is RUNNING, with NaN as MV_Lmin and VT_mLkg. *)
Theorem nan_readings_run pt w agent g :
  (w >? 0) = true ->
  evaluate_anesthesia_realistic pt w nan nan agent nan nan nan nan g =
  Returns (mkResult "RUNNING" [] []
             [ ("MV_Lmin", Num (Py.Float nan));
               ("VT_mLkg", Num (Py.Float nan));
               ("VT_target_mLkg",
                Str (if String.eqb pt "adult" then "6.0-8.0" else "5.0-8.0")) ]%string).
Proof.
  intros G.
  assert (V : valid_inputs w nan nan nan nan nan = true).
  { unfold valid_inputs. rewrite (FloatOrder.ltb_not_leb _ _ G). reflexivity. }
  rewrite (evaluate_valid _ _ _ _ _ _ _ _ _ _ V).
  assert (E : clinical_log pt w nan nan agent nan nan nan nan g = Log.empty).
  { rewrite (clinical_log_split _ _ _ _ _ _ _ _ _ _ _ _ _ _ (ranges_eq pt)).
    rewrite !app_empty, oxygen_quiet, fresh_gas_flow_quiet, agent_limits_quiet,
      vt_checks_quiet, rr_safety_quiet, minute_ventilation_quiet, airway_pressure_quiet.
    unfold vt_value. rewrite G, FloatFacts.nan_div. cbn [Py.ltb Py.gtb].
    rewrite !FloatOrder.nan_not_gtb, !FloatFacts.nan_not_ltb.
    repeat split. }
  rewrite E. unfold computed_of, vt_value, ranges. rewrite G, FloatFacts.nan_div.
  destruct (String.eqb pt "adult"); vm_compute; reflexivity.
Qed.

Lemma nan_readings_run_witness :
  (70 >? 0) = true /\
  evaluate_anesthesia_realistic "adult" 70 nan nan "Sevoflurane" nan nan nan nan true =
  Returns (mkResult "RUNNING" [] []
             [ ("MV_Lmin", Num (Py.Float nan));
               ("VT_mLkg", Num (Py.Float nan));
               ("VT_target_mLkg", Str "6.0-8.0") ]%string).
Proof.
  split; [reflexivity|].
  exact (nan_readings_run "adult" 70 "Sevoflurane" true eq_refl).
Defined.

End MoreClaims4.

(** * The start-mode window *)

Section StartModeFacts.

Variable to_float : string -> option float.

(** The computed dict of a result is empty, for an invalid input, or holds
    the three keys the window prints. *)
Lemma calculated_block_done pt w fio2 fgf agent ap p tv rr g r :
  evaluate_anesthesia_realistic pt w fio2 fgf agent ap p tv rr g = Returns r ->
  exists paragraphs,
    calculated_block (computed r) = Done paragraphs /\
    (valid_inputs w fio2 fgf ap rr tv = false -> paragraphs = []) /\
    (valid_inputs w fio2 fgf ap rr tv = true ->
     exists mv vt, paragraphs = ["CALCULATED"; "- " ++ mv; "- " ++ vt; ""]).
Proof.
  destruct (valid_inputs w fio2 fgf ap rr tv) eqn:V.
  - rewrite (evaluate_valid _ _ _ _ _ _ _ _ _ _ V). intros E. injection E as <-.
    cbn [computed]. unfold computed_of. destruct (ranges pt) as [[[lo hi] al] wl].
    eexists. split; [reflexivity|]. split; [discriminate|].
    intros _. eexists. eexists. reflexivity.
  - rewrite (evaluate_invalid _ _ _ _ _ _ _ _ _ _ V). intros E. injection E as <-.
    exists []. split; [reflexivity|]. split; [reflexivity|discriminate].
Qed.

Lemma read_numbers_some (w : Window.t) a b c d e f g :
  read_numbers to_float w = Some (a, b, c, d, e, f, g) <->
  to_float (Window.weight w) = Some a /\ to_float (Window.fio2 w) = Some b /\
  to_float (Window.fgf w) = Some c /\ to_float (Window.agent_pct w) = Some d /\
  to_float (Window.pressure w) = Some e /\ to_float (Window.vt w) = Some f /\
  to_float (Window.rr w) = Some g.
Proof.
  unfold read_numbers.
  destruct (to_float (Window.weight w)), (to_float (Window.fio2 w)),
    (to_float (Window.fgf w)), (to_float (Window.agent_pct w)),
    (to_float (Window.pressure w)), (to_float (Window.vt w)), (to_float (Window.rr w));
    split; try discriminate;
    try (intros H; injection H as <- <- <- <- <- <- <-; repeat split; reflexivity);
    try (intros (H1 & H2 & H3 & H4 & H5 & H6 & H7); congruence).
Qed.

Lemma read_numbers_none (w : Window.t) :
  read_numbers to_float w = None <->
  to_float (Window.weight w) = None \/ to_float (Window.fio2 w) = None \/
  to_float (Window.fgf w) = None \/ to_float (Window.agent_pct w) = None \/
  to_float (Window.pressure w) = None \/ to_float (Window.vt w) = None \/
  to_float (Window.rr w) = None.
Proof.
  unfold read_numbers.
  destruct (to_float (Window.weight w)), (to_float (Window.fio2 w)),
    (to_float (Window.fgf w)), (to_float (Window.agent_pct w)),
    (to_float (Window.pressure w)), (to_float (Window.vt w)), (to_float (Window.rr w));
    split; intros H; try discriminate; try reflexivity; try tauto;
    repeat (destruct H as [H|H]; try discriminate); discriminate.
Qed.

End StartModeFacts.

Section StartModeClaims.

Variable to_float : string -> option float.

(** The status a returned result carries, read off its two lists. *)
Lemma returned_status pt w fio2 fgf agent ap p tv rr g r :
  evaluate_anesthesia_realistic pt w fio2 fgf agent ap p tv rr g = Returns r ->
  status r = if truthy (alarms r) then "ALARM"
             else if truthy (warnings r) then "WARNING" else "RUNNING".
Proof.
  destruct (valid_inputs w fio2 fgf ap rr tv) eqn:V.
  - rewrite (evaluate_valid _ _ _ _ _ _ _ _ _ _ V). intros E. injection E as <-.
    reflexivity.
  - rewrite (evaluate_invalid _ _ _ _ _ _ _ _ _ _ V). intros E. injection E as <-.
    cbn [status alarms warnings]. now rewrite (invalid_violations _ _ _ _ _ _ V).
Qed.

Lemma In_message_block (x header : string) (msgs : list string) :
  In x (message_block header msgs) ->
  x = header \/ x = "" \/ exists a, In a msgs /\ x = item a.
Proof.
  unfold message_block. destruct (truthy msgs); [|intros []].
  cbn [List.app]. intros [H|H]; [auto|].
  apply in_app_or in H. destruct H as [H|[H|[]]]; [|auto].
  apply in_map_iff in H. destruct H as (a & E & I). eauto.
Qed.

Lemma message_block_items (header a : string) (msgs : list string) :
  In a msgs -> In (item a) (message_block header msgs).
Proof.
  intros I. unfold message_block. rewrite (In_truthy _ _ I).
  cbn [List.app]. right. apply in_or_app. left. now apply in_map.
Qed.

(** X10: pressing START never lets an exception out, whatever the texts
    and whatever the window showed before, and leaves the input widgets
    as they are.  If the text of any of the seven line edits is not a
    number, the banner is the invalid-numeric-input alarm in red and the
    output box holds the single request for valid numbers. *)
Theorem on_start_always_shows (w : Window.t) :
  exists w',
    on_start to_float w = Done w' /\
    (Window.patient_type w', Window.weight w', Window.fio2 w', Window.fgf w',
     Window.agent w', Window.agent_pct w', Window.pressure w', Window.vt w',
     Window.rr w', Window.hypoxic_guard w')
    = (Window.patient_type w, Window.weight w, Window.fio2 w, Window.fgf w,
       Window.agent w, Window.agent_pct w, Window.pressure w, Window.vt w,
       Window.rr w, Window.hypoxic_guard w) /\
    (to_float (Window.weight w) = None \/ to_float (Window.fio2 w) = None \/
     to_float (Window.fgf w) = None \/ to_float (Window.agent_pct w) = None \/
     to_float (Window.pressure w) = None \/ to_float (Window.vt w) = None \/
     to_float (Window.rr w) = None ->
     Window.banner w' = "ALARM – Invalid numeric input" /\
     Window.banner_sheet w' = banner_style "#e63946" /\
     Window.output w' = ["⛔ Please enter valid numbers in all fields."]).
Proof.
  unfold on_start.
  destruct (read_numbers to_float w) as [[[[[[[a b] c] d] e] f] g]|] eqn:R.
  - destruct (evaluate_returns (Window.patient_type w) a b c (Window.agent w) d e f g
                (Window.hypoxic_guard w)) as [r E].
    rewrite E.
    destruct (calculated_block_done _ _ _ _ _ _ _ _ _ _ _ E) as (ps & C & _).
    rewrite C.
    destruct (if String.eqb (status r) "RUNNING" then _ else _) as [text sheet].
    eexists. split; [reflexivity|]. split; [reflexivity|].
    intros H. apply read_numbers_none in H. congruence.
  - eexists. split; [reflexivity|]. split; [reflexivity|].
    intros _. repeat split.
Qed.

(** X11: when the seven texts are numbers, the banner follows the two
    lists of the evaluation: the red high-priority alarm if there is an
    alarm, else the orange warning if there is a warning, else the green
    RUNNING banner. *)
Theorem on_start_banner (w : Window.t) a b c d e f g :
  to_float (Window.weight w) = Some a -> to_float (Window.fio2 w) = Some b ->
  to_float (Window.fgf w) = Some c -> to_float (Window.agent_pct w) = Some d ->
  to_float (Window.pressure w) = Some e -> to_float (Window.vt w) = Some f ->
  to_float (Window.rr w) = Some g ->
  exists r w',
    evaluate_anesthesia_realistic (Window.patient_type w) a b c (Window.agent w) d e f g
      (Window.hypoxic_guard w) = Returns r /\
    on_start to_float w = Done w' /\
    Window.banner w' =
      (if truthy (alarms r) then "⛔ HIGH PRIORITY ALARM – Correct now"
       else if truthy (warnings r) then "WARNING – Review recommended"
       else "RUNNING – Parameters accepted") /\
    Window.banner_sheet w' =
      banner_style (if truthy (alarms r) then "#e63946"
                    else if truthy (warnings r) then "#f4a261" else "#1faa59").
Proof.
  intros H1 H2 H3 H4 H5 H6 H7.
  assert (R : read_numbers to_float w = Some (a, b, c, d, e, f, g))
    by (apply read_numbers_some; repeat split; assumption).
  destruct (evaluate_returns (Window.patient_type w) a b c (Window.agent w) d e f g
              (Window.hypoxic_guard w)) as [r E].
  destruct (calculated_block_done _ _ _ _ _ _ _ _ _ _ _ E) as (ps & C & _).
  unfold on_start. rewrite R, E, C, (returned_status _ _ _ _ _ _ _ _ _ _ _ E).
  exists r.
  destruct (truthy (alarms r)), (truthy (warnings r));
    eexists; (split; [reflexivity|]); (split; [reflexivity|]); split; reflexivity.
Qed.

(** X12: when the seven texts are numbers, the output box lists every
    alarm and every warning of the evaluation as an item, shows the
    CALCULATED block exactly when the numbers pass validation, and the
    no-issues line exactly when there is neither alarm nor warning. *)
Theorem on_start_output (w : Window.t) a b c d e f g :
  to_float (Window.weight w) = Some a -> to_float (Window.fio2 w) = Some b ->
  to_float (Window.fgf w) = Some c -> to_float (Window.agent_pct w) = Some d ->
  to_float (Window.pressure w) = Some e -> to_float (Window.vt w) = Some f ->
  to_float (Window.rr w) = Some g ->
  exists r w',
    evaluate_anesthesia_realistic (Window.patient_type w) a b c (Window.agent w) d e f g
      (Window.hypoxic_guard w) = Returns r /\
    on_start to_float w = Done w' /\
    (forall m, In m (alarms r) -> In (item m) (Window.output w')) /\
    (forall m, In m (warnings r) -> In (item m) (Window.output w')) /\
    (In "CALCULATED" (Window.output w') <-> valid_inputs a b c d g f = true) /\
    (In "✅ No issues detected. Minimum and clinical checks passed." (Window.output w')
     <-> alarms r = [] /\ warnings r = []).
Proof.
  intros H1 H2 H3 H4 H5 H6 H7.
  assert (R : read_numbers to_float w = Some (a, b, c, d, e, f, g))
    by (apply read_numbers_some; repeat split; assumption).
  destruct (evaluate_returns (Window.patient_type w) a b c (Window.agent w) d e f g
              (Window.hypoxic_guard w)) as [r E].
  destruct (calculated_block_done _ _ _ _ _ _ _ _ _ _ _ E) as (ps & C & Cinv & Cval).
  unfold on_start. rewrite R, E, C.
  destruct (if String.eqb (status r) "RUNNING" then _ else _) as [text sheet].
  exists r. eexists. split; [reflexivity|]. split; [reflexivity|].
  cbn [Window.output Window.show].
  split; [|split; [|split]].
  - intros m I. apply in_or_app. right. apply in_or_app. left.
    now apply message_block_items.
  - intros m I. apply in_or_app. right. apply in_or_app. right.
    apply in_or_app. left. now apply message_block_items.
  - split.
    + intros I. destruct (valid_inputs a b c d g f) eqn:V; [reflexivity|].
      rewrite (Cinv eq_refl) in I. cbn [List.app] in I.
      apply in_app_or in I. destruct I as [I|I].
      { apply In_message_block in I.
        destruct I as [I|[I|(x & _ & I)]]; discriminate. }
      apply in_app_or in I. destruct I as [I|I].
      { apply In_message_block in I.
        destruct I as [I|[I|(x & _ & I)]]; discriminate. }
      destruct (negb (truthy (alarms r)) && negb (truthy (warnings r)));
        [destruct I as [I|[]]; discriminate | destruct I].
    + intros V. destruct (Cval V) as (mv & vt & ->). left. reflexivity.
  - split.
    + intros I. apply in_app_or in I. destruct I as [I|I].
      { destruct (valid_inputs a b c d g f) eqn:V.
        - destruct (Cval eq_refl) as (mv & vt & ->).
          destruct I as [I|[I|[I|[I|[]]]]]; discriminate.
        - rewrite (Cinv eq_refl) in I. destruct I. }
      apply in_app_or in I. destruct I as [I|I].
      { apply In_message_block in I.
        destruct I as [I|[I|(x & _ & I)]]; discriminate. }
      apply in_app_or in I. destruct I as [I|I].
      { apply In_message_block in I.
        destruct I as [I|[I|(x & _ & I)]]; discriminate. }
      destruct (alarms r), (warnings r); simpl in I; try tauto.
    + intros [-> ->]. apply in_or_app. right. simpl. auto.
Qed.

End StartModeClaims.

Section StartModeExamples.

Lemma on_start_banner_witness :
  float_of_digits "70" = Some 70%float /\ float_of_digits "50" = Some 50%float /\
  float_of_digits "4" = Some 4%float /\ float_of_digits "2" = Some 2%float /\
  float_of_digits "45" = Some 45%float /\ float_of_digits "500" = Some 500%float /\
  float_of_digits "12" = Some 12%float /\
  exists w',
    on_start float_of_digits
      (Window.mk "adult" "70" "50" "4" "Sevoflurane" "2" "45" "500" "12" true "" "" [])
    = Done w' /\
    Window.banner w' = "⛔ HIGH PRIORITY ALARM – Correct now" /\
    Window.banner_sheet w' = banner_style "#e63946".
Proof.
  repeat (split; [reflexivity|]).
  destruct (on_start_banner float_of_digits
              (Window.mk "adult" "70" "50" "4" "Sevoflurane" "2" "45" "500" "12" true "" "" [])
              70 50 4 2 45 500 12 eq_refl eq_refl eq_refl eq_refl eq_refl eq_refl eq_refl)
    as (r & w' & E & S & B & C).
  exists w'. split; [exact S|].
  assert (R : r = mkResult "ALARM" [Msg.high_pressure] []
                    [ ("MV_Lmin", Num (Py.Float 6.0));
                      ("VT_mLkg", Num (Py.Float 7.14));
                      ("VT_target_mLkg", Str "6.0-8.0") ]).
  { assert (E' : evaluate_anesthesia_realistic "adult" 70 50 4 "Sevoflurane" 2 45 500 12 true
                 = Returns (mkResult "ALARM" [Msg.high_pressure] []
                    [ ("MV_Lmin", Num (Py.Float 6.0));
                      ("VT_mLkg", Num (Py.Float 7.14));
                      ("VT_target_mLkg", Str "6.0-8.0") ]))
      by (vm_compute; reflexivity).
    cbn [Window.patient_type Window.agent Window.hypoxic_guard] in E.
    rewrite E' in E. now injection E as <-. }
  rewrite R in B, C. split; [exact B | exact C].
Defined.

Lemma on_start_output_witness :
  float_of_digits "70" = Some 70%float /\ float_of_digits "50" = Some 50%float /\
  float_of_digits "4" = Some 4%float /\ float_of_digits "2" = Some 2%float /\
  float_of_digits "18" = Some 18%float /\ float_of_digits "500" = Some 500%float /\
  float_of_digits "12" = Some 12%float /\
  exists w',
    on_start float_of_digits
      (Window.mk "adult" "70" "50" "4" "Sevoflurane" "2" "18" "500" "12" true "" "" [])
    = Done w' /\
    In "CALCULATED" (Window.output w').
Proof.
  repeat (split; [reflexivity|]).
  destruct (on_start_output float_of_digits
              (Window.mk "adult" "70" "50" "4" "Sevoflurane" "2" "18" "500" "12" true "" "" [])
              70 50 4 2 18 500 12 eq_refl eq_refl eq_refl eq_refl eq_refl eq_refl eq_refl)
    as (r & w' & E & S & _ & _ & K & _).
  exists w'. split; [exact S|]. apply K. reflexivity.
Defined.

(** X13: Load Defaults followed by START is a clean run, whatever the
    window held before: given that the seven default texts convert to
    their numbers, the banner is the green RUNNING one and the output box
    shows MV 6.0, VT 7.14 per kg for the target 6.0-8.0, and the
    no-issues line. *)
Theorem defaults_then_start (to_float : string -> option float) (w : Window.t) :
  to_float "70" = Some 70%float -> to_float "50" = Some 50%float ->
  to_float "4" = Some 4%float -> to_float "2" = Some 2%float ->
  to_float "18" = Some 18%float -> to_float "500" = Some 500%float ->
  to_float "12" = Some 12%float ->
  on_start to_float (load_defaults w) =
  Done (Window.mk "adult" "70" "50" "4" "Sevoflurane" "2" "18" "500" "12" true
          "RUNNING – Parameters accepted" (banner_style "#1faa59")
          [ "CALCULATED";
            "- Minute Ventilation (MV): 6.0 L/min";
            "- VT per kg: 7.14 mL/kg (target 6.0-8.0)";
            "";
            "✅ No issues detected. Minimum and clinical checks passed." ]).
Proof.
  intros H70 H50 H4 H2 H18 H500 H12.
  unfold on_start, load_defaults, read_numbers.
  cbn [Window.weight Window.fio2 Window.fgf Window.agent_pct Window.pressure Window.vt
       Window.rr Window.patient_type Window.agent Window.hypoxic_guard].
  rewrite H70, H50, H4, H2, H18, H500, H12.
  vm_compute. reflexivity.
Qed.

Lemma defaults_then_start_witness :
  float_of_digits "70" = Some 70%float /\ float_of_digits "50" = Some 50%float /\
  float_of_digits "4" = Some 4%float /\ float_of_digits "2" = Some 2%float /\
  float_of_digits "18" = Some 18%float /\ float_of_digits "500" = Some 500%float /\
  float_of_digits "12" = Some 12%float /\
  on_start float_of_digits
    (load_defaults (Window.mk "pediatric" "" "x" "" "Isoflurane" "" "" "" "" false
                      "old banner" "" ["old output"])) =
  Done (Window.mk "adult" "70" "50" "4" "Sevoflurane" "2" "18" "500" "12" true
          "RUNNING – Parameters accepted" (banner_style "#1faa59")
          [ "CALCULATED";
            "- Minute Ventilation (MV): 6.0 L/min";
            "- VT per kg: 7.14 mL/kg (target 6.0-8.0)";
            "";
            "✅ No issues detected. Minimum and clinical checks passed." ]).
Proof.
  repeat (split; [reflexivity|]).
  exact (defaults_then_start float_of_digits _
           eq_refl eq_refl eq_refl eq_refl eq_refl eq_refl eq_refl).
Defined.

(** X14: RESET followed by START reports invalid numeric input: the line
    edits are empty, the empty text is not a number, so the banner is the
    invalid-numeric-input alarm and the output box the request for valid
    numbers; the two combo boxes and the check box keep their state. *)
Theorem reset_then_start (to_float : string -> option float) (w : Window.t) :
  to_float "" = None ->
  on_start to_float (reset_fields w) =
  Done (Window.mk (Window.patient_type w) "" "" "" (Window.agent w) "" "" "" ""
          (Window.hypoxic_guard w)
          "ALARM – Invalid numeric input" (banner_style "#e63946")
          ["⛔ Please enter valid numbers in all fields."]).
Proof.
  intros H. unfold on_start, reset_fields, read_numbers.
  cbn [Window.weight]. rewrite H. reflexivity.
Qed.

Lemma reset_then_start_witness :
  float_of_digits "" = None /\
  on_start float_of_digits
    (reset_fields (Window.mk "pediatric" "20" "50" "4" "Isoflurane" "2" "18" "100" "20"
                     false "old banner" "" ["old output"])) =
  Done (Window.mk "pediatric" "" "" "" "Isoflurane" "" "" "" "" false
          "ALARM – Invalid numeric input" (banner_style "#e63946")
          ["⛔ Please enter valid numbers in all fields."]).
Proof.
  split; [reflexivity|].
  exact (reset_then_start float_of_digits _ eq_refl).
Defined.

End StartModeExamples.
